(** * Operator tooling for Joget instances: health evaluator and MDM scanner

    A shallow embedding of [scripts/deployment/health_check.py] and
    [scripts/migration/analyze_mdm_usage.py].

    Conventions of the embedding.
    - Python [str] values are Rocq strings; the text primitives below
      ([lower], [strip], [split], [replace], [int]) follow CPython on ASCII
      text, the alphabet of every literal of the two scripts.
    - A value produced by [json.load] is a [json] term; a Python [dict] is an
      association list in insertion order, looked up by its first binding.
    - Calls that leave the process (HTTP requests, subprocesses) are
      represented by their outcome: a value or a raised exception.
    - Mutation of [self.results], [self.dependencies] and [self.warnings] is
      explicit state passing. *)

From Stdlib Require Import ZArith QArith Qcanon Ascii String DecimalString Lia.
From stdpp Require Import base decidable option list gmap strings fin_maps fin_sets.

Local Open Scope string_scope.
Local Open Scope Z_scope.

(** ** Python text primitives *)

Module Py.

(** [str.isspace] on ASCII: TAB, LF, VT, FF, CR, FS, GS, RS, US and SPACE. *)
Definition is_space (c : ascii) : bool :=
  let n := nat_of_ascii c in
  ((9 <=? n) && (n <=? 13) || (28 <=? n) && (n <=? 32))%nat.

(** [str.lower] on one character: [A-Z] move to [a-z]. *)
Definition lower_char (c : ascii) : ascii :=
  let n := nat_of_ascii c in
  if ((65 <=? n) && (n <=? 90))%nat then ascii_of_nat (n + 32) else c.

(** [s.lower()] *)
Fixpoint lower (s : string) : string :=
  match s with
  | EmptyString => EmptyString
  | String c r => String (lower_char c) (lower r)
  end.

(** [needle in hay] on strings: [needle] is a prefix of some suffix. *)
Fixpoint contains (needle hay : string) : bool :=
  if String.prefix needle hay then true
  else match hay with
       | EmptyString => false
       | String _ r => contains needle r
       end.

(** [s.lstrip()] *)
Fixpoint lstrip (s : string) : string :=
  match s with
  | EmptyString => EmptyString
  | String c r => if is_space c then lstrip r else s
  end.

(** [s.rstrip()] *)
Fixpoint rstrip (s : string) : string :=
  match s with
  | EmptyString => EmptyString
  | String c r =>
      match rstrip r with
      | EmptyString => if is_space c then EmptyString else String c EmptyString
      | r' => String c r'
      end
  end.

(** [s.strip()] *)
Definition strip (s : string) : string := rstrip (lstrip s).

(** [s.rstrip(c)] for a one-character argument *)
Fixpoint rstrip_char (c : ascii) (s : string) : string :=
  match s with
  | EmptyString => EmptyString
  | String d r =>
      match rstrip_char c r with
      | EmptyString => if Ascii.eqb d c then EmptyString else String d EmptyString
      | r' => String d r'
      end
  end.

(** [s.split(sep)] for a one-character separator: never empty, keeps empty
    fields. *)
Fixpoint split (sep : ascii) (s : string) : list string :=
  match s with
  | EmptyString => [EmptyString]
  | String c r =>
      if Ascii.eqb c sep then EmptyString :: split sep r
      else match split sep r with
           | p :: ps => String c p :: ps
           | [] => [String c EmptyString]
           end
  end.

(** [s.split()]: fields separated by runs of white space, no empty field. *)
Fixpoint split_ws (s : string) : list string :=
  match s with
  | EmptyString => []
  | String c r =>
      if is_space c then split_ws r
      else match r with
           | EmptyString => [String c EmptyString]
           | String d _ =>
               if is_space d then String c EmptyString :: split_ws r
               else match split_ws r with
                    | p :: ps => String c p :: ps
                    | [] => [String c EmptyString]
                    end
           end
  end.

(** [s.replace(old, new)]: occurrences of [old] are replaced from left to
    right without overlap.  [skip] counts the characters of an occurrence
    that was just replaced and still has to be passed over. *)
Fixpoint replace_from (old new : string) (skip : nat) (s : string) : string :=
  match s with
  | EmptyString => EmptyString
  | String c r =>
      match skip with
      | S k => replace_from old new k r
      | O =>
          if String.prefix old s
          then new +:+ replace_from old new (String.length old - 1) r
          else String c (replace_from old new O r)
      end
  end.

Definition replace (old new s : string) : string := replace_from old new O s.

(** [l[-1]] *)
Definition last_item (l : list string) : string := List.last l EmptyString.

(** Decimal digits of [int(s)] after the sign: groups of digits that single
    underscores may separate. *)
Definition digit_value (c : ascii) : option Z :=
  let n := nat_of_ascii c in
  if ((48 <=? n) && (n <=? 57))%nat then Some (Z.of_nat n - 48) else None.

Fixpoint digits (s : string) (acc : Z) (after_digit : bool) : option Z :=
  match s with
  | EmptyString => if after_digit then Some acc else None
  | String c r =>
      match digit_value c with
      | Some d => digits r (10 * acc + d) true
      | None =>
          if Ascii.eqb c "_" && after_digit then digits r acc false else None
      end
  end.

(** [int(s)]: [None] stands for [ValueError]. *)
Definition int (s : string) : option Z :=
  match strip s with
  | String "+" r => digits r 0 false
  | String "-" r => Z.opp <$> digits r 0 false
  | t => digits t 0 false
  end.

(** [str(n)] for an integer, as an f-string prints it. *)
Definition str (n : Z) : string := NilZero.string_of_int (Z.to_int n).

End Py.

(** ** Values and exceptions *)

#[local] Set Warnings "-register-all".

(** What [json.load] returns.  A float is carried by the exact rational value
    of the double, so that [1.0 == 1] is equality of values. *)
Inductive json : Type :=
| JNull
| JBool (b : bool)
| JInt (n : Z)
| JFloat (x : Qc)
| JStr (s : string)
| JArr (items : list json)
| JObj (fields : list (string * json)).

(** The exception classes the two scripts can meet.  In [requests],
    [ConnectTimeout] derives from both [ConnectionError] and [Timeout], and
    [ReadTimeout] from [Timeout] alone. *)
Inductive exn_class : Type :=
| ConnectionError
| Timeout
| ConnectTimeout
| ReadTimeout
| TimeoutExpired
| FileNotFoundError
| ValueError
| TypeError
| AttributeError
| KeyError
| ZeroDivisionError
| JSONDecodeError
| SystemExit
| RecursionError
| OtherException.

Global Instance exn_class_eq_dec : EqDecision exn_class.
Proof. solve_decision. Defined.

(** [issubclass c base], for the classes named in [except] clauses. *)
Definition issubclass (c base : exn_class) : bool :=
  match c, base with
  | ConnectTimeout, (ConnectionError | Timeout) => true
  | ReadTimeout, Timeout => true
  | _, _ => bool_decide (c = base)
  end.

(** A raised exception: its class and [str(e)]. *)
Record exn : Type := Exn { exn_type : exn_class; exn_str : string }.

Definition isinstance (e : exn) (base : exn_class) : bool :=
  issubclass (exn_type e) base.

(** Outcome of a computation that may raise. *)
Inductive result (A : Type) : Type :=
| Ok (a : A)
| Raise (e : exn).
Arguments Ok {A} a.
Arguments Raise {A} e.

(** ** Health evaluator ([health_check.py]) *)

Module HealthCheck.

Inductive HealthStatus : Type := HEALTHY | DEGRADED | UNHEALTHY | UNKNOWN.

Global Instance HealthStatus_eq_dec : EqDecision HealthStatus.
Proof. solve_decision. Defined.

Record CheckResult : Type := mkCheckResult {
  check_name : string;
  status : HealthStatus;
  message : string;
  details : list (string * json)
}.

(** The instance descriptor read by [__init__]; [version] may be absent
    from a custom configuration. *)
Record config : Type := mkConfig {
  web_port : Z;
  db_port : Z;
  version : option string
}.

Definition base_url (cfg : config) : string :=
  "http://localhost:" +:+ Py.str (web_port cfg) +:+ "/jw".

(** Outcome of [requests.get]: a response (status code, elapsed seconds) or
    an exception. *)
Inductive http_outcome : Type :=
| Response (status_code : Z) (elapsed : Qc)
| GetRaises (e : exn).

(** Outcome of [subprocess.run]: a completed process or an exception. *)
Inductive run_outcome : Type :=
| Completed (returncode : Z) (stdout : string)
| RunRaises (e : exn).

(** Everything one run of the six checks observes outside the process. *)
Record probes : Type := mkProbes {
  get_root : http_outcome;
  mysql_first : run_outcome;
  mysql_retry : run_outcome;
  get_console : http_outcome;
  ps_aux : run_outcome;
  df_root : run_outcome;
  free_m : run_outcome
}.

(** [self.results.append(r)] *)
Definition append (results : list CheckResult) (r : CheckResult) : list CheckResult :=
  results ++ [r].

Definition _check_web_interface (cfg : config) (o : http_outcome)
    (results : list CheckResult) : list CheckResult :=
  match o with
  | Response code elapsed =>
      if code =? 200 then
        append results (mkCheckResult "Web Interface" HEALTHY
          ("Web interface responding (HTTP " +:+ Py.str code +:+ ")")
          [("url", JStr (base_url cfg)); ("response_time", JFloat elapsed)])
      else
        append results (mkCheckResult "Web Interface" DEGRADED
          ("Web interface returned HTTP " +:+ Py.str code)
          [("url", JStr (base_url cfg))])
  | GetRaises e =>
      if isinstance e ConnectionError then
        append results (mkCheckResult "Web Interface" UNHEALTHY
          ("Cannot connect to web interface on port " +:+ Py.str (web_port cfg))
          [("url", JStr (base_url cfg))])
      else if isinstance e Timeout then
        append results (mkCheckResult "Web Interface" DEGRADED
          "Web interface timeout (>10s)"
          [("url", JStr (base_url cfg))])
      else
        append results (mkCheckResult "Web Interface" UNHEALTHY
          ("Error checking web interface: " +:+ exn_str e)
          [("error", JStr (exn_str e))])
  end.

(** The [except] clauses of [_check_database_connection]. *)
Definition database_except (cfg : config) (e : exn)
    (results : list CheckResult) : list CheckResult :=
  if isinstance e TimeoutExpired then
    append results (mkCheckResult "Database Connection" DEGRADED
      "Database connection timeout"
      [("port", JInt (db_port cfg))])
  else if isinstance e FileNotFoundError then
    append results (mkCheckResult "Database Connection" UNKNOWN
      "MySQL client not found (cannot verify database)"
      [("port", JInt (db_port cfg));
       ("note", JStr "Install mysql-client to enable this check")])
  else
    append results (mkCheckResult "Database Connection" UNKNOWN
      ("Error checking database: " +:+ exn_str e)
      [("error", JStr (exn_str e))]).

Definition database_accessible (cfg : config) : CheckResult :=
  mkCheckResult "Database Connection" HEALTHY
    ("Database accessible on port " +:+ Py.str (db_port cfg))
    [("port", JInt (db_port cfg))].

Definition _check_database_connection (cfg : config) (first retry : run_outcome)
    (results : list CheckResult) : list CheckResult :=
  match first with
  | Completed rc _ =>
      if rc =? 0 then append results (database_accessible cfg)
      else
        match retry with
        | Completed rc' _ =>
            if rc' =? 0 then append results (database_accessible cfg)
            else
              append results (mkCheckResult "Database Connection" DEGRADED
                ("Database connection requires authentication (port "
                   +:+ Py.str (db_port cfg) +:+ ")")
                [("port", JInt (db_port cfg));
                 ("note", JStr "Unable to verify without password")])
        | RunRaises e => database_except cfg e results
        end
  | RunRaises e => database_except cfg e results
  end.

Definition _check_admin_console (cfg : config) (o : http_outcome)
    (results : list CheckResult) : list CheckResult :=
  match o with
  | Response code _ =>
      if bool_decide (code ∈ [200; 302; 401]) then
        append results (mkCheckResult "Admin Console" HEALTHY
          "Admin console accessible"
          [("url", JStr (base_url cfg +:+ "/web/console/home"))])
      else
        append results (mkCheckResult "Admin Console" DEGRADED
          ("Admin console returned HTTP " +:+ Py.str code)
          [("url", JStr (base_url cfg +:+ "/web/console/home"))])
  | GetRaises e =>
      append results (mkCheckResult "Admin Console" DEGRADED
        ("Cannot access admin console: " +:+ exn_str e)
        [("error", JStr (exn_str e))])
  end.

(** Newline, the separator of [stdout.split('\n')]. *)
Definition LF : ascii := ascii_of_nat 10.

Definition _check_process_running (cfg : config) (o : run_outcome)
    (results : list CheckResult) : list CheckResult :=
  match o with
  | Completed _ stdout =>
      let version := default "" (version cfg) in
      let joget_processes :=
        List.filter
          (fun line => Py.contains "joget" (Py.lower line) && Py.contains version line)
          (Py.split LF stdout) in
      match joget_processes with
      | _ :: _ =>
          append results (mkCheckResult "Process Status" HEALTHY
            ("Joget process running (version " +:+ version +:+ ")")
            [("process_count", JInt (Z.of_nat (length joget_processes)))])
      | [] =>
          append results (mkCheckResult "Process Status" UNHEALTHY
            "Joget process not found"
            [("version", JStr version)])
      end
  | RunRaises e =>
      append results (mkCheckResult "Process Status" UNKNOWN
        ("Error checking process: " +:+ exn_str e)
        [("error", JStr (exn_str e))])
  end.

(** The three-tier threshold shared by the disk and memory checks. *)
Definition tier (used_percent : Z) : HealthStatus :=
  if used_percent <? 80 then HEALTHY
  else if used_percent <? 90 then DEGRADED
  else UNHEALTHY.

(** [str(e)] of the [ValueError] that [int(s)] raises (the literal is shown
    between quotes). *)
Definition invalid_literal (s : string) : exn :=
  Exn ValueError ("invalid literal for int() with base 10: '" +:+ s +:+ "'").

(** [int(s)] inside a [try] block. *)
Definition int_or_raise (s : string) : result Z :=
  match Py.int s with
  | Some n => Ok n
  | None => Raise (invalid_literal s)
  end.

Definition disk_unknown (text : string) (d : list (string * json)) : CheckResult :=
  mkCheckResult "Disk Space" UNKNOWN text d.

Definition _check_disk_space (o : run_outcome)
    (results : list CheckResult) : list CheckResult :=
  let on_error (e : exn) :=
    append results (disk_unknown ("Error checking disk space: " +:+ exn_str e)
                                 [("error", JStr (exn_str e))]) in
  let fallback :=
    append results (disk_unknown "Could not parse disk space information" []) in
  match o with
  | Completed _ stdout =>
      let lines := Py.split LF (Py.strip stdout) in
      if (2 <=? length lines)%nat then
        let parts := Py.split_ws (lines !!! 1%nat) in
        if (5 <=? length parts)%nat then
          match int_or_raise (Py.rstrip_char "%" (parts !!! 4%nat)) with
          | Ok used_percent =>
              let message :=
                if used_percent <? 80 then
                  "Disk space OK (" +:+ Py.str used_percent +:+ "% used)"
                else if used_percent <? 90 then
                  "Disk space low (" +:+ Py.str used_percent +:+ "% used)"
                else
                  "Disk space critical (" +:+ Py.str used_percent +:+ "% used)" in
              append results (mkCheckResult "Disk Space" (tier used_percent) message
                [("used_percent", JInt used_percent);
                 ("available", JStr (parts !!! 3%nat));
                 ("total", JStr (parts !!! 1%nat))])
          | Raise e => on_error e
          end
        else fallback
      else fallback
  | RunRaises e => on_error e
  end.

Section Memory.

(** [int((used / total) * 100)] in double arithmetic; it raises
    [ZeroDivisionError] when [total] is zero. *)
Variable used_percent_of : Z -> Z -> result Z.

Definition memory_unknown (text : string) (d : list (string * json)) : CheckResult :=
  mkCheckResult "Memory Usage" UNKNOWN text d.

Definition _check_memory_usage (o : run_outcome)
    (results : list CheckResult) : list CheckResult :=
  let on_error (e : exn) :=
    if isinstance e FileNotFoundError then
      append results (memory_unknown "Memory check not available on this platform" [])
    else
      append results (memory_unknown ("Error checking memory: " +:+ exn_str e)
                                     [("error", JStr (exn_str e))]) in
  let fallback :=
    append results (memory_unknown "Could not parse memory information" []) in
  match o with
  | Completed _ stdout =>
      let lines := Py.split LF (Py.strip stdout) in
      if (2 <=? length lines)%nat then
        let parts := Py.split_ws (lines !!! 1%nat) in
        if (3 <=? length parts)%nat then
          match int_or_raise (parts !!! 1%nat) with
          | Ok total =>
              match int_or_raise (parts !!! 2%nat) with
              | Ok used =>
                  match used_percent_of used total with
                  | Ok used_percent =>
                      let message :=
                        if used_percent <? 80 then
                          "Memory usage OK (" +:+ Py.str used_percent +:+ "%)"
                        else if used_percent <? 90 then
                          "Memory usage high (" +:+ Py.str used_percent +:+ "%)"
                        else
                          "Memory usage critical (" +:+ Py.str used_percent +:+ "%)" in
                      append results
                        (mkCheckResult "Memory Usage" (tier used_percent) message
                           [("used_percent", JInt used_percent);
                            ("used_mb", JInt used);
                            ("total_mb", JInt total)])
                  | Raise e => on_error e
                  end
              | Raise e => on_error e
              end
          | Raise e => on_error e
          end
        else fallback
      else fallback
  | RunRaises e => on_error e
  end.

End Memory.

(** [sum(1 for r in results if r.status == s)] *)
Definition count_status (s : HealthStatus) (results : list CheckResult) : nat :=
  length (filter (fun r => status r = s) results).

Definition _calculate_overall_status (results : list CheckResult) : HealthStatus :=
  let unhealthy_count := count_status UNHEALTHY results in
  let degraded_count := count_status DEGRADED results in
  let unknown_count := count_status UNKNOWN results in
  if (0 <? unhealthy_count)%nat then UNHEALTHY
  else if (0 <? degraded_count)%nat then DEGRADED
  else if (0 <? unknown_count)%nat then UNKNOWN
  else HEALTHY.

(** [run_all_checks]: the six checks in order on [self.results], then the
    overall status of the list they leave. *)
Definition run_all_checks (used_percent_of : Z -> Z -> result Z)
    (cfg : config) (w : probes)
    (results : list CheckResult) : HealthStatus * list CheckResult :=
  let results := _check_web_interface cfg (get_root w) results in
  let results := _check_database_connection cfg (mysql_first w) (mysql_retry w) results in
  let results := _check_admin_console cfg (get_console w) results in
  let results := _check_process_running cfg (ps_aux w) results in
  let results := _check_disk_space (df_root w) results in
  let results := _check_memory_usage used_percent_of (free_m w) results in
  let overall_status := _calculate_overall_status results in
  (overall_status, results).

End HealthCheck.

(** ** MDM dependency scanner ([analyze_mdm_usage.py]) *)

Module MdmUsage.

Global Instance result_bind : MBind result := fun _ _ f m =>
  match m with
  | Ok a => f a
  | Raise e => Raise e
  end.

Definition raise {A : Type} (c : exn_class) (text : string) : result A :=
  Raise (Exn c text).

(** *** Operations of Python values on JSON data *)

(** [d.get(k)] on the bindings of a dict *)
Fixpoint dict_get (k : string) (d : list (string * json)) : option json :=
  match d with
  | [] => None
  | (k', v) :: rest => if String.eqb k k' then Some v else dict_get k rest
  end.

(** [k in d] on the bindings of a dict *)
Definition dict_has (k : string) (d : list (string * json)) : bool :=
  bool_decide (is_Some (dict_get k d)).

(** The keys of a dict, in order. *)
Definition dict_keys (d : list (string * json)) : list string := remove_dups (d.*1).

(** [x.get(k, dflt)]: only a dict has the method. *)
Definition py_get (k : string) (dflt : json) (x : json) : result json :=
  match x with
  | JObj d => Ok (default dflt (dict_get k d))
  | _ => raise AttributeError "object has no attribute 'get'"
  end.

(** [k in x] for a string [k]: key of a dict, item of a list, substring of a
    string; anything else is not iterable. *)
Definition py_in (k : string) (x : json) : result bool :=
  match x with
  | JObj d => Ok (dict_has k d)
  | JArr l => Ok (existsb (fun v => match v with
                                    | JStr s => String.eqb s k
                                    | _ => false
                                    end) l)
  | JStr s => Ok (Py.contains k s)
  | _ => raise TypeError "argument is not iterable"
  end.

(** [x[k]] for a string [k]: only a dict can be indexed by a string. *)
Definition py_getitem (k : string) (x : json) : result json :=
  match x with
  | JObj d =>
      match dict_get k d with
      | Some v => Ok v
      | None => raise KeyError k
      end
  | _ => raise TypeError "indices must be integers"
  end.

(** The strings of length one that iterating over a [str] yields. *)
Fixpoint chars (s : string) : list json :=
  match s with
  | EmptyString => []
  | String c r => JStr (String c EmptyString) :: chars r
  end.

(** [iter(x)]: the items of a list, the keys of a dict, the characters of a
    string. *)
Definition py_iter (x : json) : result (list json) :=
  match x with
  | JArr l => Ok l
  | JObj d => Ok (JStr <$> dict_keys d)
  | JStr s => Ok (chars s)
  | _ => raise TypeError "object is not iterable"
  end.

(** [len(x)] *)
Definition py_len (x : json) : result nat :=
  match x with
  | JArr l => Ok (length l)
  | JObj d => Ok (length (dict_keys d))
  | JStr s => Ok (String.length s)
  | _ => raise TypeError "object has no len()"
  end.

(** [bool(x)] *)
Definition truthy (x : json) : bool :=
  match x with
  | JNull => false
  | JBool b => b
  | JInt n => negb (n =? 0)
  | JFloat q => negb (bool_decide (q = 0%Qc))
  | JStr s => negb (String.eqb s "")
  | JArr l => negb (bool_decide (l = []))
  | JObj d => negb (bool_decide (d = []))
  end.

(** The key under which a hashable value is stored in a [set]: [True == 1]
    and [1 == 1.0] are one element.  Lists and dicts are unhashable. *)
Inductive hkey : Type :=
| HNone
| HNum (q : Qc)
| HStr (s : string).

Global Instance hkey_eq_dec : EqDecision hkey.
Proof. solve_decision. Defined.

Global Instance hkey_countable : Countable hkey.
Proof.
  refine (inj_countable'
    (fun k => match k with
              | HNone => inl ()
              | HNum q => inr (inl q)
              | HStr s => inr (inr s)
              end)
    (fun x => match x with
              | inl _ => HNone
              | inr (inl q) => HNum q
              | inr (inr s) => HStr s
              end) _).
  intros []; reflexivity.
Defined.

Definition py_hash (x : json) : result hkey :=
  match x with
  | JNull => Ok HNone
  | JBool b => Ok (HNum (if b then 1%Qc else 0%Qc))
  | JInt n => Ok (HNum (Qc_of_Z n))
  | JFloat q => Ok (HNum q)
  | JStr s => Ok (HStr s)
  | JArr _ | JObj _ => raise TypeError "unhashable type"
  end.

(** A [for] loop whose body may raise, over the state it updates. *)
Fixpoint for_each {A S : Type} (body : A -> S -> result S) (l : list A) (st : S)
    : result S :=
  match l with
  | [] => Ok st
  | x :: rest =>
      match body x st with
      | Ok st' => for_each body rest st'
      | Raise e => Raise e
      end
  end.

(** *** The data model *)

Record MDMDependency : Type := mkMDMDependency {
  form_id : json;
  form_name : json;
  field_id : json;
  field_label : json;
  field_type : string;
  options_source : string;
  options_config : json;
  has_ajax_cascade : bool;
  cascade_config : option json
}.

(** The mapping built by [_generate_statistics]: its four fixed keys. *)
Record Statistics : Type := mkStatistics {
  by_field_type : gmap string nat;
  by_options_source : gmap string nat;
  ajax_cascade_count : nat;
  unique_forms_with_mdm : nat
}.

Record AnalysisReport : Type := mkAnalysisReport {
  application_id : json;
  application_name : json;
  total_forms : nat;
  total_mdm_fields : nat;
  dependencies : list MDMDependency;
  warnings : list string;
  statistics : Statistics
}.

(** The mutable attributes of a [JogetAppAnalyzer]. *)
Record analyzer : Type := mkAnalyzer {
  self_dependencies : list MDMDependency;
  self_warnings : list string;
  self_app_data : json
}.

(** [__init__] *)
Definition init : analyzer := mkAnalyzer [] [] (JObj []).

Definition MDM_FIELD_TYPES : list string :=
  ["selectBox"; "checkBox"; "radio"; "multiselect"].

Definition EXTERNAL_BINDERS : list (string * string) :=
  [("formOptions", "Form Options Binder");
   ("jdbcOptions", "JDBC Options Binder");
   ("restOptions", "REST Options Binder")].

(** *** The methods *)

(** [_load_app_export]: [export] is the outcome of opening the archive and
    parsing its first JSON member; any exception ends the process. *)
Definition _load_app_export (export : result json) : result json :=
  match export with
  | Ok data => Ok data
  | Raise e => raise SystemExit "1"
  end.

Definition _get_forms (self : analyzer) : result (json * analyzer) :=
  let app_data := self_app_data self in
  has_forms ← py_in "forms" app_data;
  if has_forms : bool then
    forms ← py_getitem "forms" app_data;
    Ok (forms, self)
  else
    has_list ← py_in "formDefinitionList" app_data;
    if has_list : bool then
      forms ← py_getitem "formDefinitionList" app_data;
      Ok (forms, self)
    else
      Ok (JArr [],
          mkAnalyzer (self_dependencies self)
                     (self_warnings self ++ ["Could not find forms in application structure"])
                     app_data).

(** [_get_field_type], on whatever [element.get('className', '')] returned:
    a list or dict without a ['.'] item comes back unchanged, one with it
    has no [split], and [in] rejects the other values. *)
Definition _get_field_type (class_name : json) : result json :=
  has_dot ← py_in "." class_name;
  if has_dot : bool then
    match class_name with
    | JStr s =>
        Ok (JStr (Py.replace "SelectBox" "selectBox"
                    (Py.last_item (Py.split "." s))))
    | _ => raise AttributeError "object has no attribute 'split'"
    end
  else Ok class_name.

(** [field_type in self.MDM_FIELD_TYPES]: membership in a set of strings
    hashes the value first. *)
Definition in_MDM_FIELD_TYPES (field_type : json) : result bool :=
  k ← py_hash field_type;
  Ok (bool_decide (k ∈ (HStr <$> MDM_FIELD_TYPES))).

(** The loop of [_identify_binder_type] over the keys of [EXTERNAL_BINDERS]. *)
Fixpoint first_key_in (keys : list string) (text : string) : option string :=
  match keys with
  | [] => None
  | key :: rest => if Py.contains key text then Some key else first_key_in rest text
  end.

Definition _identify_binder_type (binder_class : json) : result string :=
  match binder_class with
  | JStr s => Ok (default "unknown" (first_key_in (EXTERNAL_BINDERS.*1) (Py.lower s)))
  | _ => raise AttributeError "object has no attribute 'lower'"
  end.

Definition _analyze_mdm_field (element : json) (form_id form_name : json)
    (field_type : string) (self : analyzer) : result analyzer :=
  properties ← py_get "properties" (JObj []) element;
  field_id ← py_get "id" (JStr "unknown") properties;
  field_label ← py_get "label" (JStr "unknown") properties;
  (* Check options configuration *)
  let options_config := JObj [] in
  let options_source := "static" in
  has_options ← py_in "options" properties;
  '(options_config, options_source) ←
     (if has_options : bool then
        v ← py_getitem "options" properties;
        Ok (v, "static")
      else Ok (options_config, options_source));
  has_binder ← py_in "optionsBinder" properties;
  '(options_config, options_source) ←
     (if has_binder : bool then
        binder_config ← py_getitem "optionsBinder" properties;
        match binder_config with
        | JObj _ =>
            binder_class ← py_get "className" (JStr "") binder_config;
            source ← _identify_binder_type binder_class;
            config ← py_get "properties" (JObj []) binder_config;
            Ok (config, source)
        | _ => Ok (options_config, options_source)
        end
      else Ok (options_config, options_source));
  (* Check for AJAX cascade *)
  control_field ← py_get "controlField" JNull properties;
  cascade_options ← py_get "cascadeOptions" JNull properties;
  let has_ajax_cascade := truthy control_field || truthy cascade_options in
  cascade_options' ← py_get "cascadeOptions" (JObj []) properties;
  let cascade_config :=
    JObj [("controlField", control_field); ("cascadeOptions", cascade_options')] in
  (* Only record if using external data source *)
  if negb (String.eqb options_source "static") || has_ajax_cascade then
    let dependency :=
      mkMDMDependency form_id form_name field_id field_label field_type
        options_source options_config has_ajax_cascade
        (if has_ajax_cascade then Some cascade_config else None) in
    Ok (mkAnalyzer (self_dependencies self ++ [dependency])
                   (self_warnings self) (self_app_data self))
  else Ok self.

(** The two loops that end [_search_elements]: over the node's own
    ['elements'], then over the ['elements'] nested in its ['properties'];
    [recur] is the recursive call on one child. *)
Definition search_children (recur : json -> analyzer -> result analyzer)
    (element : json) (self : analyzer) : result analyzer :=
  (* Recursively search child elements *)
  has_elements ← py_in "elements" element;
  self ← (if has_elements : bool then
            elements ← py_get "elements" (JArr []) element;
            children ← py_iter elements;
            for_each recur children self
          else Ok self);
  (* Search in properties (some elements nest configs here) *)
  has_properties ← py_in "properties" element;
  if has_properties : bool then
    props ← py_getitem "properties" element;
    match props with
    | JObj _ =>
        has_nested ← py_in "elements" props;
        if has_nested : bool then
          nested ← py_getitem "elements" props;
          children ← py_iter nested;
          for_each recur children self
        else Ok self
    | _ => Ok self
    end
  else Ok self.

(** [_search_elements]: [depth] is the number of nested calls the
    interpreter still allows; running out of it is [RecursionError]. *)
Fixpoint _search_elements (depth : nat) (element : json) (form_id form_name : json)
    (self : analyzer) : result analyzer :=
  match depth with
  | O => raise RecursionError "maximum recursion depth exceeded"
  | S depth' =>
      match element with
      | JObj _ =>
          (* Check if this element is an MDM field *)
          class_name ← py_get "className" (JStr "") element;
          field_type ← _get_field_type class_name;
          is_mdm ← in_MDM_FIELD_TYPES field_type;
          self ← (if is_mdm : bool then
                    match field_type with
                    | JStr t => _analyze_mdm_field element form_id form_name t self
                    | _ => Ok self
                    end
                  else Ok self);
          search_children
            (fun child => _search_elements depth' child form_id form_name)
            element self
      | _ => Ok self
      end
  end.

Section Scan.

(** [json.loads]; it raises [JSONDecodeError] on malformed text. *)
Variable json_loads : string -> result json.

(** The recursion limit of the interpreter, counted from [_search_elements]. *)
Variable depth : nat.

Definition _analyze_form (form : json) (self : analyzer) : result analyzer :=
  form_id ← py_get "id" (JStr "unknown") form;
  form_name ← py_get "name" (JStr "unknown") form;
  (* Get form JSON definition *)
  form_json ← py_get "json" (JObj []) form;
  form_json ← match form_json with
              | JStr text => json_loads text
              | _ => Ok form_json
              end;
  (* Recursively search for MDM field types *)
  _search_elements depth form_json form_id form_name self.

(** [stats[group][key] = stats[group].get(key, 0) + 1] *)
Definition count_up (key : string) (group : gmap string nat) : gmap string nat :=
  <[key := (default 0 (group !! key) + 1)%nat]> group.

(** One iteration of the loop of [_generate_statistics]. *)
Definition count_dependency (stats : Statistics) (dep : MDMDependency) : Statistics :=
  mkStatistics
    (count_up (field_type dep) (by_field_type stats))
    (count_up (options_source dep) (by_options_source stats))
    (if has_ajax_cascade dep then (ajax_cascade_count stats + 1)%nat
     else ajax_cascade_count stats)
    (unique_forms_with_mdm stats).

(** [set(d.form_id for d in self.dependencies)] *)
Fixpoint form_id_set (deps : list MDMDependency) : result (gset hkey) :=
  match deps with
  | [] => Ok ∅
  | d :: rest =>
      k ← py_hash (form_id d);
      s ← form_id_set rest;
      Ok ({[k]} ∪ s)
  end.

Definition _generate_statistics (self : analyzer) : result Statistics :=
  forms ← form_id_set (self_dependencies self);
  let stats := mkStatistics ∅ ∅ 0 (size forms) in
  Ok (foldl count_dependency stats (self_dependencies self)).

Definition analyze (export : result json) (self : analyzer)
    : result (AnalysisReport * analyzer) :=
  (* Extract and parse application *)
  app_data ← _load_app_export export;
  let self := mkAnalyzer (self_dependencies self) (self_warnings self) app_data in
  (* Analyze forms *)
  '(forms, self) ← _get_forms self;
  total ← py_len forms;
  items ← py_iter forms;
  self ← for_each _analyze_form items self;
  (* Generate statistics *)
  stats ← _generate_statistics self;
  (* Create report *)
  application_id ← py_get "appId" (JStr "unknown") (self_app_data self);
  application_name ← py_get "appName" (JStr "unknown") (self_app_data self);
  let report :=
    mkAnalysisReport application_id application_name total
      (length (self_dependencies self)) (self_dependencies self)
      (self_warnings self) stats in
  Ok (report, self).

End Scan.

End MdmUsage.

(** * Vocabulary of the specification *)

Import HealthCheck MdmUsage.
Local Open Scope list_scope.

(** Some result of the sequence has status [s]. *)
Definition has_status (s : HealthStatus) (results : list CheckResult) : Prop :=
  exists r, r ∈ results /\ status r = s.

(** The used percentage that the disk check reads from the output of [df]:
    the fifth field of the second line, without its trailing percent signs.
    [None] when the tool failed or the field is missing or not a number. *)
Definition parsed_used_percent (o : run_outcome) : option Z :=
  match o with
  | Completed _ stdout =>
      line ← Py.split LF (Py.strip stdout) !! 1%nat;
      field ← Py.split_ws line !! 4%nat;
      Py.int (Py.rstrip_char "%" field)
  | RunRaises _ => None
  end.

(** The names of the six checks, in the order [run_all_checks] runs them. *)
Definition check_order : list string :=
  ["Web Interface"; "Database Connection"; "Admin Console";
   "Process Status"; "Disk Space"; "Memory Usage"].

(** The character [c] occurs in [s]. *)
Fixpoint occurs (c : ascii) (s : string) : Prop :=
  match s with
  | EmptyString => False
  | String d r => c = d \/ occurs c r
  end.

(** [s.endswith(suffix)] *)
Fixpoint ends_with (suffix s : string) : bool :=
  if String.eqb suffix s then true
  else match s with
       | EmptyString => false
       | String _ r => ends_with suffix r
       end.

(** The field-type tag as the specification words it: the last
    dot-separated component of the identifier, except that an identifier
    ending in [SelectBox] is [selectBox]. *)
Definition claimed_field_type (class_name : string) : string :=
  if ends_with "SelectBox" class_name then "selectBox"
  else Py.last_item (Py.split "." class_name).

(** The options source of a field with properties [props]: what its
    [optionsBinder] is identified as when that is a mapping, [static]
    otherwise. *)
Definition source_of (props : list (string * json)) : result string :=
  match dict_get "optionsBinder" props with
  | Some (JObj binder) =>
      _identify_binder_type (default (JStr "") (dict_get "className" binder))
  | _ => Ok "static"
  end.

(** The field has an AJAX cascade: [controlField] or [cascadeOptions] holds
    a value that counts as true. *)
Definition cascade_of (props : list (string * json)) : bool :=
  truthy (default JNull (dict_get "controlField" props))
  || truthy (default JNull (dict_get "cascadeOptions" props)).

(** [self.dependencies.append(dep)] *)
Definition record (dep : MDMDependency) (self : analyzer) : analyzer :=
  mkAnalyzer (self_dependencies self ++ [dep]) (self_warnings self)
             (self_app_data self).

(** The sum of the counts held by a mapping from keys to counts. *)
Definition sum_counts (group : gmap string nat) : nat :=
  map_fold (fun _ n acc => (n + acc)%nat) 0%nat group.

(** How many dependencies have the key [k] under the grouping [key]. *)
Definition occurrences (key : MDMDependency -> string) (k : string)
    (deps : list MDMDependency) : nat :=
  length (filter (fun d => key d = k) deps).

(** The warning recorded when the application has no form list. *)
Definition no_forms_warning : string :=
  "Could not find forms in application structure".

(** Every check appends one result, under its own name. *)
Definition appends_one (name : string)
    (check : list CheckResult -> list CheckResult) : Prop :=
  forall results, exists r, check results = results ++ [r] /\ check_name r = name.

(** The output of [df -h /] with a given text in the [Use%] column. *)
Definition df_output (use : string) : run_outcome :=
  Completed 0
    ("Filesystem      Size  Used Avail Use% Mounted on" +:+ String LF
     ("/dev/sda1        50G   40G   10G  " +:+ use +:+ " /" +:+ String LF "")).

(** The status the web check records for an outcome of the request: the
    [except] clauses are tried in order, so an exception that is both a
    connection error and a timeout is handled as a connection error. *)
Definition web_status (o : http_outcome) : HealthStatus :=
  match o with
  | Response code _ => if code =? 200 then HEALTHY else DEGRADED
  | GetRaises e =>
      if isinstance e ConnectionError then UNHEALTHY
      else if isinstance e Timeout then DEGRADED
      else UNHEALTHY
  end.

(** A select box with static options that cascades from the field
    [country]. *)
Definition cascading_field : list (string * json) :=
  [("className", JStr "org.joget.apps.form.lib.SelectBox");
   ("properties",
    JObj [("id", JStr "city"); ("label", JStr "City");
          ("options", JArr [JObj [("value", JStr "a"); ("label", JStr "A")]]);
          ("controlField", JStr "country")])].

(** A scan of two forms: one holds a select box bound to a JDBC options
    binder, the other, whose definition is kept as text, a plain text
    field. *)
Definition sample_select : json :=
  JObj [("className", JStr "org.joget.apps.form.lib.SelectBox");
        ("properties",
         JObj [("id", JStr "dept"); ("label", JStr "Department");
               ("optionsBinder",
                JObj [("className", JStr "org.joget.plugin.enterprise.JdbcOptionsBinder");
                      ("properties", JObj [("sql", JStr "select id, name from dept")])])])].

Definition sample_text_field : json :=
  JObj [("className", JStr "org.joget.apps.form.lib.TextField");
        ("properties", JObj [("id", JStr "name"); ("label", JStr "Name")])].

Definition sample_form_definition (fields : list json) : json :=
  JObj [("className", JStr "org.joget.apps.form.model.Form");
        ("properties", JObj [("id", JStr "form")]);
        ("elements",
         JArr [JObj [("className", JStr "org.joget.apps.form.model.Section");
                     ("elements",
                      JArr [JObj [("className", JStr "org.joget.apps.form.model.Column");
                                  ("elements", JArr fields)]])]])].

Definition sample_loads (text : string) : result json :=
  if String.eqb text "<form f2>" then Ok (sample_form_definition [sample_text_field])
  else raise JSONDecodeError "Expecting value".

Definition sample_app : json :=
  JObj [("appId", JStr "frs"); ("appName", JStr "FRS");
        ("forms",
         JArr [JObj [("id", JStr "f1"); ("name", JStr "Form 1");
                     ("json", sample_form_definition [sample_select])];
               JObj [("id", JStr "f2"); ("name", JStr "Form 2");
                     ("json", JStr "<form f2>")]])].


(** The nesting depth of a document: lists and mappings are one level above
    their deepest item. *)
Fixpoint height (v : json) : nat :=
  match v with
  | JArr items => S (foldr (fun x acc => Nat.max (height x) acc) 0%nat items)
  | JObj fields => S (foldr (fun kv acc => Nat.max (height kv.2) acc) 0%nat fields)
  | _ => 0%nat
  end.


(** ** Entry point of the health evaluator ([main] of [health_check.py]) *)

(** [InstanceHealthChecker.INSTANCES] *)
Definition INSTANCES : list (string * config) :=
  [("jdx1", mkConfig 8080 3306 (Some "8.1.6"));
   ("jdx2", mkConfig 9999 3307 (Some "8.1.6"));
   ("jdx3", mkConfig 8888 3308 (Some "9.0.0"));
   ("jdx4", mkConfig 8081 3309 (Some "9.0.0"));
   ("jdx5", mkConfig 8082 3310 (Some "9.0.0"));
   ("jdx6", mkConfig 8083 3311 (Some "9.0.0"))].

(** [d.get(k)] on a dict with string keys *)
Fixpoint table_get {V : Type} (k : string) (d : list (string * V)) : option V :=
  match d with
  | [] => None
  | (k', v) :: rest => if String.eqb k k' then Some v else table_get k rest
  end.

(** [d[k] = v]: the value of an existing key is replaced where it stands, a
    new key goes to the end. *)
Fixpoint table_set {V : Type} (k : string) (v : V) (d : list (string * V))
    : list (string * V) :=
  match d with
  | [] => [(k, v)]
  | (k', v') :: rest =>
      if String.eqb k k' then (k', v) :: rest else (k', v') :: table_set k v rest
  end.

(** [InstanceHealthChecker(instance_name, config)], that is [__init__]: a
    custom configuration (a mapping with the two ports) is taken as it is,
    otherwise the name is looked up in [INSTANCES], and an unknown name is a
    [ValueError].  The checker starts with no results. *)
Definition InstanceHealthChecker (instance_name : string) (custom : option config)
    : result config :=
  match custom with
  | Some cfg => Ok cfg
  | None =>
      match table_get instance_name INSTANCES with
      | Some cfg => Ok cfg
      | None => raise ValueError ("Unknown instance: " +:+ instance_name)
      end
  end.

(** What [main] keeps per instance: the overall status and the results. *)
Definition instance_report : Type := (HealthStatus * list CheckResult)%type.

(** The loop of [main] over [instances_to_check]: each instance gets a fresh
    checker, and its report is stored under its name in [all_results]. *)
Fixpoint run_instances (used_percent_of : Z -> Z -> result Z)
    (instances : list (string * option config * probes))
    (all_results : list (string * instance_report))
    : result (list (string * instance_report)) :=
  match instances with
  | [] => Ok all_results
  | (name, custom, w) :: rest =>
      cfg ← InstanceHealthChecker name custom;
      let report := run_all_checks used_percent_of cfg w [] in
      run_instances used_percent_of rest (table_set name report all_results)
  end.

(** The exit status [main] ends with. *)
Definition exit_code (all_results : list (string * instance_report)) : Z :=
  if forallb (fun r => bool_decide (r.2.1 = HEALTHY)) all_results then 0
  else if existsb (fun r => bool_decide (r.2.1 = UNHEALTHY)) all_results then 2
  else 1.

(** [main], from the instances to check to the exit status. *)
Definition main (used_percent_of : Z -> Z -> result Z)
    (instances : list (string * option config * probes)) : result Z :=
  all_results ← run_instances used_percent_of instances [];
  Ok (exit_code all_results).

(** The instances [main] checks under [--all], with what each one observes. *)
Definition all_instances (observe : string -> probes)
    : list (string * option config * probes) :=
  (fun name => (name, None, observe name))
    <$> ["jdx1"; "jdx2"; "jdx3"; "jdx4"; "jdx5"; "jdx6"].

(** The rank of a status in the order HEALTHY, UNKNOWN, DEGRADED, UNHEALTHY. *)
Definition severity (s : HealthStatus) : nat :=
  match s with
  | HEALTHY => 0
  | UNKNOWN => 1
  | DEGRADED => 2
  | UNHEALTHY => 3
  end.

(** The more severe of two statuses. *)
Definition worst (a b : HealthStatus) : HealthStatus :=
  if (severity a <? severity b)%nat then b else a.

(** The total and used memory that the memory check reads from the output
    of [free -m]: the second and third field of the second line.  [None]
    when the tool failed, a field is missing or a field is not a number. *)
Definition parsed_memory (o : run_outcome) : option (Z * Z) :=
  match o with
  | Completed _ stdout =>
      line ← Py.split LF (Py.strip stdout) !! 1%nat;
      used_field ← Py.split_ws line !! 2%nat;
      total_field ← Py.split_ws line !! 1%nat;
      total ← Py.int total_field;
      used ← Py.int used_field;
      Some (total, used)
  | RunRaises _ => None
  end.

(** The output of [free -m] with given texts for total and used memory. *)
Definition free_output (total used : string) : run_outcome :=
  Completed 0
    ("              total        used        free" +:+ String LF
     ("Mem:  " +:+ total +:+ "  " +:+ used +:+ "  12" +:+ String LF
      ("Swap:   0   0   0" +:+ String LF ""))).

(** A stand-in for the percentage of the memory check in exact arithmetic,
    for runs on sample inputs: it truncates [used * 100 / total]. *)
Definition sample_percent (used total : Z) : result Z :=
  if total =? 0 then Raise (Exn ZeroDivisionError "division by zero")
  else Ok (Z.quot (used * 100) total).

(** What one instance contributes: a report of six results under the names
    of the checks, with the overall status of those results. *)
Definition well_formed_report (rep : instance_report) : Prop :=
  check_name <$> rep.2 = check_order /\ rep.1 = _calculate_overall_status rep.2.

(** An instance on which every check succeeds. *)
Definition healthy_probes : probes :=
  mkProbes (Response 200 0%Qc) (Completed 0 "1") (Completed 0 "1")
    (Response 302 0%Qc)
    (Completed 0
       ("root  1 java -Dcatalina.base=/opt/joget-8.1.6 /opt/Joget-9.0.0/tomcat"
          +:+ String LF ""))
    (df_output "42%") (free_output "16000" "8000").

(** An instance that is down: nothing listens and no process runs. *)
Definition stopped_probes : probes :=
  mkProbes (GetRaises (Exn ConnectionError "Connection refused"))
    (Completed 1 "") (Completed 1 "")
    (GetRaises (Exn ConnectionError "Connection refused"))
    (Completed 0 ("root  1 /sbin/init" +:+ String LF ""))
    (df_output "42%") (free_output "16000" "8000").

(** An instance that answers, with a database asking for a password. *)
Definition slow_probes : probes :=
  mkProbes (Response 200 0%Qc) (Completed 1 "") (Completed 1 "")
    (Response 302 0%Qc)
    (Completed 0 ("root  1 java /opt/joget/tomcat" +:+ String LF ""))
    (df_output "42%") (free_output "16000" "8000").

(** What every dependency found in the form [fid], [fname] looks like: it
    carries the form, its field type is one of [MDM_FIELD_TYPES], its
    options source is [unknown] or else [static] with a cascade, and it has
    a cascade configuration exactly when it cascades. *)
Definition recorded_in (fid fname : json) (dep : MDMDependency) : Prop :=
  form_id dep = fid /\ form_name dep = fname /\
  field_type dep ∈ MDM_FIELD_TYPES /\
  (options_source dep = "unknown" \/
   (options_source dep = "static" /\ has_ajax_cascade dep = true)) /\
  (cascade_config dep = None <-> has_ajax_cascade dep = false).

(** [self'] is [self] with dependencies of the form [fid], [fname] appended
    and nothing else changed. *)
Definition extends (fid fname : json) (self self' : analyzer) : Prop :=
  self_warnings self' = self_warnings self /\
  self_app_data self' = self_app_data self /\
  exists found,
    self_dependencies self' = self_dependencies self ++ found /\
    Forall (recorded_in fid fname) found.

(** The dependency was found in one of the forms [items]: it carries the
    identifier and name of that form and has the shape of a recorded
    dependency. *)
Definition from_forms (items : list json) (dep : MDMDependency) : Prop :=
  exists form, form ∈ items /\
    py_get "id" (JStr "unknown") form = Ok (form_id dep) /\
    py_get "name" (JStr "unknown") form = Ok (form_name dep) /\
    recorded_in (form_id dep) (form_name dep) dep.

(** The key of a value in a set, when it has one. *)
Definition hash_of (v : json) : option hkey :=
  match py_hash v with
  | Ok k => Some k
  | Raise _ => None
  end.

(** The value is not a string. *)
Definition not_str (v : json) : Prop :=
  match v with
  | JStr _ => False
  | _ => True
  end.

(** The value is not a mapping. *)
Definition not_dict (v : json) : Prop :=
  match v with
  | JObj _ => False
  | _ => True
  end.

(** * Properties *)

(** ** Text primitives *)

Section PyFacts.

Example lower_ex : Py.lower "Org.JdbcOptionsBinder" = "org.jdbcoptionsbinder".
Proof. reflexivity. Qed.

Example split_ex : Py.split "." "a.b..c" = ["a"; "b"; ""; "c"].
Proof. reflexivity. Qed.

Example split_ws_ex :
  Py.split_ws "/dev/sda1   50G  40G   10G  80% /" =
  ["/dev/sda1"; "50G"; "40G"; "10G"; "80%"; "/"].
Proof. reflexivity. Qed.

Example strip_ex :
  Py.strip ("  a b " +:+ String HealthCheck.LF EmptyString) = "a b".
Proof. reflexivity. Qed.

Example replace_ex :
  Py.replace "SelectBox" "selectBox" "MultiSelectBox" = "MultiselectBox".
Proof. reflexivity. Qed.

Example int_ex :
  Py.int "80" = Some 80 /\ Py.int "-7" = Some (-7) /\ Py.int "1_0" = Some 10 /\
  Py.int "" = None /\ Py.int "8o" = None /\ Py.int "1__0" = None.
Proof. repeat split; reflexivity. Qed.

Example str_ex : Py.str 200 = "200" /\ Py.str (-3) = "-3" /\ Py.str 0 = "0".
Proof. repeat split; reflexivity. Qed.

End PyFacts.

(** ** Health evaluator *)

Section HealthFacts.

Lemma count_status_pos (s : HealthStatus) (results : list CheckResult) :
  (0 < count_status s results)%nat <-> has_status s results.
Proof.
  unfold count_status, has_status.
  induction results as [|r rs IH]; simpl.
  - split; [lia | intros (r & Hr & _); apply elem_of_nil in Hr; contradiction].
  - rewrite filter_cons. destruct (decide (status r = s)) as [E|N]; simpl.
    + split; [intros _ | lia]. exists r. split; [apply elem_of_cons; by left | exact E].
    + rewrite IH. split.
      * intros (x & Hx & E). exists x. split; [apply elem_of_cons; by right | exact E].
      * intros (x & Hx & E). apply elem_of_cons in Hx as [->|Hx]; [contradiction|].
        exists x. split; assumption.
Qed.

Lemma count_status_zero (s : HealthStatus) (results : list CheckResult) :
  ~ has_status s results -> (0 <? count_status s results)%nat = false.
Proof.
  intros N. apply Nat.ltb_ge.
  destruct (count_status s results) eqn:E; [lia|].
  exfalso. apply N, count_status_pos. lia.
Qed.

Lemma count_status_some (s : HealthStatus) (results : list CheckResult) :
  has_status s results -> (0 <? count_status s results)%nat = true.
Proof. intros H. apply Nat.ltb_lt, count_status_pos, H. Qed.

Lemma count_status_perm (s : HealthStatus) (l l' : list CheckResult) :
  l ≡ₚ l' -> count_status s l = count_status s l'.
Proof. intros P. unfold count_status. rewrite P. reflexivity. Qed.

(** C1.  The overall status is the most severe status present, in the order
    UNHEALTHY, DEGRADED, UNKNOWN, HEALTHY; it does not depend on the order of
    the results, and it is HEALTHY for the empty sequence. *)
Theorem overall_status_severity (results : list CheckResult) :
  (has_status UNHEALTHY results ->
     _calculate_overall_status results = UNHEALTHY) /\
  (~ has_status UNHEALTHY results -> has_status DEGRADED results ->
     _calculate_overall_status results = DEGRADED) /\
  (~ has_status UNHEALTHY results -> ~ has_status DEGRADED results ->
   has_status UNKNOWN results ->
     _calculate_overall_status results = UNKNOWN) /\
  (~ has_status UNHEALTHY results -> ~ has_status DEGRADED results ->
   ~ has_status UNKNOWN results ->
     _calculate_overall_status results = HEALTHY) /\
  (forall results', results ≡ₚ results' ->
     _calculate_overall_status results' = _calculate_overall_status results) /\
  _calculate_overall_status [] = HEALTHY.
Proof.
  unfold _calculate_overall_status.
  repeat split.
  - intros H. rewrite (count_status_some _ _ H). reflexivity.
  - intros N H. rewrite (count_status_zero _ _ N), (count_status_some _ _ H).
    reflexivity.
  - intros N1 N2 H.
    rewrite (count_status_zero _ _ N1), (count_status_zero _ _ N2),
      (count_status_some _ _ H).
    reflexivity.
  - intros N1 N2 N3.
    rewrite (count_status_zero _ _ N1), (count_status_zero _ _ N2),
      (count_status_zero _ _ N3).
    reflexivity.
  - intros l' P.
    rewrite !(count_status_perm _ _ _ P). reflexivity.
Qed.

Example overall_unhealthy_wins :
  _calculate_overall_status
    [mkCheckResult "a" UNKNOWN "" []; mkCheckResult "b" UNHEALTHY "" [];
     mkCheckResult "c" DEGRADED "" []] = UNHEALTHY.
Proof. reflexivity. Qed.

Example overall_degraded_over_unknown :
  _calculate_overall_status
    [mkCheckResult "a" UNKNOWN "" []; mkCheckResult "b" HEALTHY "" [];
     mkCheckResult "c" DEGRADED "" []] = DEGRADED.
Proof. reflexivity. Qed.

Ltac one_result :=
  intros results; cbv zeta; unfold append;
  repeat case_match; eexists; (split; [reflexivity | reflexivity]).

Lemma web_interface_appends_one cfg o :
  appends_one "Web Interface" (_check_web_interface cfg o).
Proof. unfold _check_web_interface. one_result. Qed.

Lemma database_appends_one cfg first retry :
  appends_one "Database Connection" (_check_database_connection cfg first retry).
Proof. unfold _check_database_connection, database_except. one_result. Qed.

Lemma admin_console_appends_one cfg o :
  appends_one "Admin Console" (_check_admin_console cfg o).
Proof. unfold _check_admin_console. one_result. Qed.

Lemma process_appends_one cfg o :
  appends_one "Process Status" (_check_process_running cfg o).
Proof. unfold _check_process_running. one_result. Qed.

Lemma disk_space_appends_one o :
  appends_one "Disk Space" (_check_disk_space o).
Proof. unfold _check_disk_space. one_result. Qed.

Lemma memory_appends_one f o :
  appends_one "Memory Usage" (_check_memory_usage f o).
Proof. unfold _check_memory_usage. one_result. Qed.

(** The branch of the disk check agrees with the used percentage read from
    the output of the tool. *)
Lemma disk_space_status (o : run_outcome) (results : list CheckResult) :
  exists r, _check_disk_space o results = results ++ [r] /\
    check_name r = "Disk Space" /\
    status r = match parsed_used_percent o with
               | Some p => tier p
               | None => UNKNOWN
               end.
Proof.
  unfold _check_disk_space, parsed_used_percent, append, int_or_raise.
  destruct o as [rc stdout|e]; cbv zeta; [|eexists; repeat split; reflexivity].
  set (lines := Py.split LF (Py.strip stdout)).
  destruct (2 <=? length lines)%nat eqn:L2.
  - apply Nat.leb_le in L2.
    destruct (lookup_lt_is_Some_2 lines 1%nat ltac:(lia)) as [line Hline].
    rewrite (list_lookup_total_correct _ _ _ Hline), Hline.
    cbn [mbind option_bind].
    set (parts := Py.split_ws line).
    destruct (5 <=? length parts)%nat eqn:L5.
    + apply Nat.leb_le in L5.
      destruct (lookup_lt_is_Some_2 parts 4%nat ltac:(lia)) as [field Hfield].
      rewrite (list_lookup_total_correct _ _ _ Hfield), Hfield.
      cbn [mbind option_bind].
      destruct (Py.int (Py.rstrip_char "%" field)) as [p|];
        eexists; repeat split; reflexivity.
    + apply Nat.leb_gt in L5.
      rewrite (lookup_ge_None_2 parts 4%nat) by lia.
      eexists; repeat split; reflexivity.
  - apply Nat.leb_gt in L2.
    rewrite (lookup_ge_None_2 lines 1%nat) by lia.
    eexists; repeat split; reflexivity.
Qed.

(** C6.  The disk check appends one result; when a used percentage [p] is
    read from the tool, its status is HEALTHY below 80, DEGRADED from 80 to
    below 90 and UNHEALTHY from 90 on, and when none can be read it is
    UNKNOWN. *)
Theorem disk_space_thresholds (o : run_outcome) (results : list CheckResult) :
  exists r, _check_disk_space o results = results ++ [r] /\
    (forall p, parsed_used_percent o = Some p ->
       (p < 80 -> status r = HEALTHY) /\
       (80 <= p < 90 -> status r = DEGRADED) /\
       (90 <= p -> status r = UNHEALTHY)) /\
    (parsed_used_percent o = None -> status r = UNKNOWN).
Proof.
  destruct (disk_space_status o results) as (r & E & _ & S).
  exists r. split; [exact E|]. split.
  - intros p Hp. rewrite Hp in S. rewrite S. unfold tier.
    repeat split; intros H.
    + destruct (Z.ltb_spec p 80); [reflexivity | lia].
    + destruct (Z.ltb_spec p 80); [lia|].
      destruct (Z.ltb_spec p 90); [reflexivity | lia].
    + destruct (Z.ltb_spec p 80); [lia|].
      destruct (Z.ltb_spec p 90); [lia | reflexivity].
  - intros Hn. rewrite Hn in S. exact S.
Qed.

Example disk_79_healthy :
  parsed_used_percent (df_output "79%") = Some 79 /\
  status <$> _check_disk_space (df_output "79%") [] = [HEALTHY].
Proof. split; reflexivity. Qed.

Example disk_80_degraded :
  parsed_used_percent (df_output "80%") = Some 80 /\
  status <$> _check_disk_space (df_output "80%") [] = [DEGRADED].
Proof. split; reflexivity. Qed.

Example disk_89_degraded :
  status <$> _check_disk_space (df_output "89%") [] = [DEGRADED].
Proof. reflexivity. Qed.

Example disk_90_unhealthy :
  parsed_used_percent (df_output "90%") = Some 90 /\
  status <$> _check_disk_space (df_output "90%") [] = [UNHEALTHY].
Proof. split; reflexivity. Qed.

Example disk_unparsed_unknown :
  parsed_used_percent (df_output "-") = None /\
  status <$> _check_disk_space (df_output "-") [] = [UNKNOWN] /\
  status <$> _check_disk_space (Completed 1 "") [] = [UNKNOWN] /\
  status <$> _check_disk_space
    (RunRaises (Exn FileNotFoundError "No such file or directory: 'df'")) []
    = [UNKNOWN].
Proof. repeat split; reflexivity. Qed.

(** C8, as amended.  The web check appends one result named "Web Interface":
    HEALTHY for status code 200, DEGRADED for any other status code,
    UNHEALTHY for a connection error (a connect timeout included), DEGRADED
    for a timeout that is not a connection error, UNHEALTHY for any other
    exception. *)
Theorem web_interface_classification (cfg : config) (o : http_outcome)
    (results : list CheckResult) :
  exists r, _check_web_interface cfg o results = results ++ [r] /\
    check_name r = "Web Interface" /\
    status r = web_status o /\
    match o with
    | Response code _ =>
        (code = 200 -> status r = HEALTHY) /\ (code <> 200 -> status r = DEGRADED)
    | GetRaises e =>
        (isinstance e ConnectionError = true -> status r = UNHEALTHY) /\
        (isinstance e ConnectionError = false -> isinstance e Timeout = true ->
           status r = DEGRADED) /\
        (isinstance e ConnectionError = false -> isinstance e Timeout = false ->
           status r = UNHEALTHY)
    end.
Proof.
  unfold _check_web_interface, web_status, append.
  destruct o as [code elapsed|e].
  - destruct (Z.eqb_spec code 200);
      eexists; (split; [reflexivity|]); repeat split; simpl; intros; congruence.
  - destruct (isinstance e ConnectionError), (isinstance e Timeout);
      eexists; (split; [reflexivity|]); repeat split; simpl; intros; congruence.
Qed.

(** C8, as stated, fails: a connect timeout is a timeout, and the check
    records UNHEALTHY for it, not DEGRADED. *)
Lemma web_connect_timeout_not_degraded :
  let cfg := mkConfig 8081 3309 (Some "9.0.0") in
  let e := Exn ConnectTimeout "Connection to localhost timed out." in
  isinstance e Timeout = true /\
  status <$> _check_web_interface cfg (GetRaises e) [] = [UNHEALTHY] /\
  ~ (forall (cfg : config) (e : exn) (results : list CheckResult),
       isinstance e Timeout = true ->
       exists r, _check_web_interface cfg (GetRaises e) results = results ++ [r] /\
                 status r = DEGRADED).
Proof.
  cbv zeta. split; [reflexivity|]. split; [reflexivity|].
  intros H.
  destruct (H (mkConfig 8081 3309 (Some "9.0.0"))
              (Exn ConnectTimeout "Connection to localhost timed out.") []
              eq_refl) as (r & E & S).
  simpl in E. inversion E; subst r. discriminate S.
Qed.

Example web_read_timeout_degraded :
  status <$> _check_web_interface (mkConfig 8081 3309 None)
    (GetRaises (Exn ReadTimeout "Read timed out.")) [] = [DEGRADED].
Proof. reflexivity. Qed.

Example web_refused_unhealthy :
  status <$> _check_web_interface (mkConfig 8081 3309 None)
    (GetRaises (Exn ConnectionError "Connection refused")) [] = [UNHEALTHY].
Proof. reflexivity. Qed.

Example web_503_degraded :
  status <$> _check_web_interface (mkConfig 8081 3309 None) (Response 503 0%Qc) []
    = [DEGRADED].
Proof. reflexivity. Qed.

(** C9.  One run of [run_all_checks] appends six results to [self.results],
    one per check and in the order of the checks, whatever each check
    observes; every check on its own appends one result under its name; and
    the overall status is computed from the list the run leaves. *)
Theorem run_all_checks_six_results (used_percent_of : Z -> Z -> result Z)
    (cfg : config) (w : probes) (results : list CheckResult) :
  (exists six,
     (run_all_checks used_percent_of cfg w results).2 = results ++ six /\
     check_name <$> six = check_order /\
     length six = 6%nat /\
     (run_all_checks used_percent_of cfg w results).1 =
       _calculate_overall_status (results ++ six)) /\
  appends_one "Web Interface" (_check_web_interface cfg (get_root w)) /\
  appends_one "Database Connection"
    (_check_database_connection cfg (mysql_first w) (mysql_retry w)) /\
  appends_one "Admin Console" (_check_admin_console cfg (get_console w)) /\
  appends_one "Process Status" (_check_process_running cfg (ps_aux w)) /\
  appends_one "Disk Space" (_check_disk_space (df_root w)) /\
  appends_one "Memory Usage" (_check_memory_usage used_percent_of (free_m w)).
Proof.
  split.
  - unfold run_all_checks. cbv zeta.
    destruct (web_interface_appends_one cfg (get_root w) results) as (r1 & -> & N1).
    destruct (database_appends_one cfg (mysql_first w) (mysql_retry w)
                (results ++ [r1])) as (r2 & -> & N2).
    destruct (admin_console_appends_one cfg (get_console w)
                ((results ++ [r1]) ++ [r2])) as (r3 & -> & N3).
    destruct (process_appends_one cfg (ps_aux w)
                (((results ++ [r1]) ++ [r2]) ++ [r3])) as (r4 & -> & N4).
    destruct (disk_space_appends_one (df_root w)
                ((((results ++ [r1]) ++ [r2]) ++ [r3]) ++ [r4])) as (r5 & -> & N5).
    destruct (memory_appends_one used_percent_of (free_m w)
                (((((results ++ [r1]) ++ [r2]) ++ [r3]) ++ [r4]) ++ [r5]))
      as (r6 & -> & N6).
    exists [r1; r2; r3; r4; r5; r6]. simpl.
    rewrite <- !app_assoc. simpl.
    repeat split. unfold check_order. congruence.
  - repeat split;
      auto using web_interface_appends_one, database_appends_one,
        admin_console_appends_one, process_appends_one, disk_space_appends_one,
        memory_appends_one.
Qed.

End HealthFacts.

(** ** Scanner: classification of binders and field types *)

Section TextFacts.

Lemma prefix_occurs (c : ascii) (needle hay : string) :
  String.prefix needle hay = true -> occurs c needle -> occurs c hay.
Proof.
  revert hay. induction needle as [|a needle IH]; intros hay P O.
  - contradiction.
  - destruct hay as [|b hay]; simpl in P; [discriminate|].
    destruct (ascii_dec a b) as [->|]; [|discriminate].
    simpl. destruct O as [->|O]; [by left | right; by apply IH].
Qed.

Lemma contains_unfold (needle hay : string) :
  Py.contains needle hay =
    if String.prefix needle hay then true
    else match hay with
         | EmptyString => false
         | String _ r => Py.contains needle r
         end.
Proof. destruct hay; reflexivity. Qed.

Lemma contains_occurs (c : ascii) (needle hay : string) :
  Py.contains needle hay = true -> occurs c needle -> occurs c hay.
Proof.
  induction hay as [|b hay IH]; rewrite contains_unfold.
  - destruct (String.prefix needle "") eqn:P; intros C O; [|discriminate].
    by apply (prefix_occurs c needle "").
  - destruct (String.prefix needle (String b hay)) eqn:P; intros C O.
    + by apply (prefix_occurs c needle (String b hay)).
    + right. by apply IH.
Qed.

Lemma lower_char_not_O (c : ascii) : Py.lower_char c <> "O"%char.
Proof. destruct c as [[] [] [] [] [] [] [] []]; vm_compute; discriminate. Qed.

Lemma lower_free_of_O (s : string) : ~ occurs "O" (Py.lower s).
Proof.
  induction s as [|c s IH]; simpl; [tauto|].
  intros [E|O]; [|by apply IH].
  by apply (lower_char_not_O c).
Qed.

Lemma contains_absent_prefix (needle hay : string) :
  Py.contains needle hay = false -> String.prefix needle hay = false.
Proof.
  rewrite contains_unfold. destruct (String.prefix needle hay); congruence.
Qed.

Lemma replace_absent (old new s : string) :
  Py.contains old s = false -> Py.replace old new s = s.
Proof.
  unfold Py.replace. induction s as [|c s IH]; intros C; [reflexivity|].
  pose proof (contains_absent_prefix _ _ C) as P.
  cbn [Py.replace_from]. rewrite P. f_equal. apply IH.
  rewrite contains_unfold, P in C. exact C.
Qed.

Lemma split_no_sep (sep : ascii) (s : string) :
  ~ occurs sep s -> Py.split sep s = [s].
Proof.
  induction s as [|c s IH]; simpl; intros N; [reflexivity|].
  destruct (Ascii.eqb_spec c sep) as [->|Hne]; [tauto|].
  rewrite IH by tauto. reflexivity.
Qed.

Lemma split_nonempty (sep : ascii) (s : string) : Py.split sep s <> [].
Proof.
  destruct s as [|c s]; simpl; [discriminate|].
  destruct (Ascii.eqb c sep); [discriminate|].
  destruct (Py.split sep s); discriminate.
Qed.

Lemma last_item_cons (x : string) (l : list string) :
  l <> [] -> Py.last_item (x :: l) = Py.last_item l.
Proof. destruct l; [congruence | reflexivity]. Qed.

(** Splitting [pkg + sep + name] gives the fields of [pkg], then those of
    [name]. *)
Lemma split_app (sep : ascii) (pkg name : string) :
  Py.split sep (pkg +:+ String sep name) = Py.split sep pkg ++ Py.split sep name.
Proof.
  induction pkg as [|c pkg IH]; simpl.
  - rewrite Ascii.eqb_refl. reflexivity.
  - destruct (Ascii.eqb c sep); rewrite IH; [reflexivity|].
    destruct (Py.split sep pkg) as [|p ps] eqn:E; [|reflexivity].
    exfalso. by apply (split_nonempty sep pkg).
Qed.

Lemma last_item_app (l1 l2 : list string) :
  l2 <> [] -> Py.last_item (l1 ++ l2) = Py.last_item l2.
Proof.
  intros N. induction l1 as [|x l1 IH]; [reflexivity|].
  rewrite <- app_comm_cons, last_item_cons; [exact IH|].
  destruct l1; simpl; [exact N | discriminate].
Qed.

(** The last field of [pkg + sep + name] is the last field of [name]. *)
Lemma last_item_split_app (sep : ascii) (pkg name : string) :
  Py.last_item (Py.split sep (pkg +:+ String sep name)) =
  Py.last_item (Py.split sep name).
Proof. rewrite split_app. apply last_item_app, split_nonempty. Qed.

Lemma contains_app_sep (sep : ascii) (pkg name : string) :
  Py.contains (String sep EmptyString) (pkg +:+ String sep name) = true.
Proof.
  induction pkg as [|c pkg IH]; simpl.
  - destruct (ascii_dec sep sep); [destruct name; reflexivity | congruence].
  - destruct (ascii_dec sep c); [|exact IH].
    destruct (pkg +:+ String sep name); reflexivity.
Qed.

End TextFacts.

Section Classification.

Lemma first_key_in_lower (binder_class : string) :
  first_key_in (EXTERNAL_BINDERS.*1) (Py.lower binder_class) = None.
Proof.
  assert (forall key, occurs "O" key ->
            Py.contains key (Py.lower binder_class) = false) as Absent.
  { intros key O. destruct (Py.contains key (Py.lower binder_class)) eqn:C;
      [|reflexivity].
    exfalso. apply (lower_free_of_O binder_class).
    by apply (contains_occurs _ key). }
  simpl. rewrite !Absent; [reflexivity | simpl; tauto ..].
Qed.

(** C2 (the code departs from it).  [_identify_binder_type] lowers the class
    name and then looks for the keys as they are spelled, capital [O]
    included, so no key is ever found: every class name is classified
    [unknown], among them one that contains [jdbcoptions] without regard to
    case. *)
Theorem identify_binder_type_always_unknown :
  (forall binder_class : string,
     _identify_binder_type (JStr binder_class) = Ok "unknown") /\
  Py.contains "jdbcoptions"
    (Py.lower "org.joget.plugin.enterprise.JdbcOptionsBinder") = true /\
  _identify_binder_type (JStr "org.joget.plugin.enterprise.JdbcOptionsBinder")
    = Ok "unknown".
Proof.
  split; [|split; reflexivity].
  intros binder_class. unfold _identify_binder_type.
  rewrite first_key_in_lower. reflexivity.
Qed.

Example identify_form_options_binder :
  _identify_binder_type (JStr "org.joget.apps.form.lib.FormOptionsBinder")
    = Ok "unknown".
Proof. reflexivity. Qed.

Example identify_lowered_key_absent :
  first_key_in (EXTERNAL_BINDERS.*1) "jdbcoptions" = None /\
  first_key_in (EXTERNAL_BINDERS.*1) "jdbcOptions" = Some "jdbcOptions".
Proof. split; reflexivity. Qed.

Lemma get_field_type_str (s : string) :
  _get_field_type (JStr s) =
    Ok (JStr (if Py.contains "." s
              then Py.replace "SelectBox" "selectBox"
                     (Py.last_item (Py.split "." s))
              else s)).
Proof.
  unfold _get_field_type. simpl py_in. cbn [mbind result_bind].
  destruct (Py.contains "." s); reflexivity.
Qed.

Lemma in_MDM_FIELD_TYPES_str (tag : string) :
  in_MDM_FIELD_TYPES (JStr tag) = Ok (bool_decide (tag ∈ MDM_FIELD_TYPES)).
Proof.
  assert (Inj (=) (=) HStr) by (intros x y [= ->]; reflexivity).
  unfold in_MDM_FIELD_TYPES. cbn [py_hash mbind result_bind]. f_equal.
  apply bool_decide_ext. apply (list_elem_of_fmap_inj HStr).
Qed.

End Classification.

(** ** Scanner: field types and candidate fields *)

Section Candidates.

(** C5, as amended.  The tag of a class name without a dot is the name
    itself; the tag of a dotted name is its last dot-separated component
    with every occurrence of [SelectBox] replaced by [selectBox], so that
    [pkg.SelectBox] is [selectBox] and a last component free of [SelectBox]
    is its own tag; and a node is handed to [_analyze_mdm_field] exactly
    when its tag is in [MDM_FIELD_TYPES]. *)
Theorem field_type_tag_and_candidates (class_name : string) :
  (Py.contains "." class_name = false ->
     _get_field_type (JStr class_name) = Ok (JStr class_name)) /\
  (Py.contains "." class_name = true ->
     _get_field_type (JStr class_name) =
       Ok (JStr (Py.replace "SelectBox" "selectBox"
                   (Py.last_item (Py.split "." class_name))))) /\
  (forall pkg name : string,
     class_name = pkg +:+ "." +:+ name -> ~ occurs "." name ->
     Py.last_item (Py.split "." class_name) = name /\
     (name = "SelectBox" ->
        _get_field_type (JStr class_name) = Ok (JStr "selectBox")) /\
     (Py.contains "SelectBox" name = false ->
        _get_field_type (JStr class_name) = Ok (JStr name))) /\
  (forall (depth : nat) (fields : list (string * json)) (fid fname : json)
          (self : analyzer) (tag : string),
     dict_get "className" fields = Some (JStr class_name) ->
     _get_field_type (JStr class_name) = Ok (JStr tag) ->
     _search_elements (S depth) (JObj fields) fid fname self =
       (self' ← (if bool_decide (tag ∈ MDM_FIELD_TYPES)
                 then _analyze_mdm_field (JObj fields) fid fname tag self
                 else Ok self);
        search_children (fun child => _search_elements depth child fid fname)
                        (JObj fields) self')).
Proof.
  split; [|split; [|split]].
  - intros H. rewrite get_field_type_str, H. reflexivity.
  - intros H. rewrite get_field_type_str, H. reflexivity.
  - intros pkg name -> Hname.
    change ("." +:+ name) with (String "." name).
    rewrite get_field_type_str, contains_app_sep, last_item_split_app,
      (split_no_sep _ _ Hname).
    unfold Py.last_item. simpl last.
    split; [reflexivity|]. split.
    + intros ->. reflexivity.
    + intros Absent. rewrite (replace_absent _ _ _ Absent). reflexivity.
  - intros depth fields fid fname self tag Hc Ht.
    cbn [_search_elements py_get]. rewrite Hc. cbn [from_option id mbind result_bind].
    rewrite Ht. cbn [mbind result_bind].
    rewrite in_MDM_FIELD_TYPES_str. cbn [mbind result_bind].
    reflexivity.
Qed.

(** C5, as stated, fails: the class name of Joget's popup select box ends in
    [SelectBox], yet its tag is neither [selectBox] nor its last component,
    and the node is not a candidate. *)
Lemma popup_select_box_not_select_box :
  ends_with "SelectBox" "org.joget.plugin.enterprise.PopupSelectBox" = true /\
  _get_field_type (JStr "org.joget.plugin.enterprise.PopupSelectBox")
    = Ok (JStr "PopupselectBox") /\
  _get_field_type (JStr "org.joget.plugin.enterprise.PopupSelectBox")
    <> Ok (JStr (claimed_field_type "org.joget.plugin.enterprise.PopupSelectBox")) /\
  _get_field_type (JStr "org.joget.plugin.enterprise.PopupSelectBox")
    <> Ok (JStr (Py.last_item
                   (Py.split "." "org.joget.plugin.enterprise.PopupSelectBox"))) /\
  in_MDM_FIELD_TYPES (JStr "PopupselectBox") = Ok false.
Proof. repeat split; try reflexivity; vm_compute; discriminate. Qed.

Example bare_select_box_unchanged :
  _get_field_type (JStr "SelectBox") = Ok (JStr "SelectBox") /\
  claimed_field_type "SelectBox" = "selectBox" /\
  in_MDM_FIELD_TYPES (JStr "SelectBox") = Ok false.
Proof. repeat split; reflexivity. Qed.

Example joget_select_box :
  _get_field_type (JStr "org.joget.apps.form.lib.SelectBox") = Ok (JStr "selectBox").
Proof. reflexivity. Qed.

Example joget_check_box :
  _get_field_type (JStr "org.joget.apps.form.lib.CheckBox") = Ok (JStr "CheckBox") /\
  in_MDM_FIELD_TYPES (JStr "CheckBox") = Ok false.
Proof. split; reflexivity. Qed.

End Candidates.

Section Recording.

Lemma dict_has_some (k : string) (d : list (string * json)) (v : json) :
  dict_get k d = Some v -> dict_has k d = true.
Proof. intros E. unfold dict_has. rewrite E. reflexivity. Qed.

Lemma dict_has_none (k : string) (d : list (string * json)) :
  dict_get k d = None -> dict_has k d = false.
Proof. intros E. unfold dict_has. rewrite E. reflexivity. Qed.

Lemma analyze_mdm_field_spec (fields props : list (string * json))
    (fid fname : json) (t source : string) (self : analyzer) :
  default (JObj []) (dict_get "properties" fields) = JObj props ->
  source_of props = Ok source ->
  exists config : json,
    _analyze_mdm_field (JObj fields) fid fname t self =
      Ok (if negb (String.eqb source "static") || cascade_of props
          then record (mkMDMDependency fid fname
                         (default (JStr "unknown") (dict_get "id" props))
                         (default (JStr "unknown") (dict_get "label" props))
                         t source config (cascade_of props)
                         (if cascade_of props
                          then Some (JObj
                                 [("controlField",
                                   default JNull (dict_get "controlField" props));
                                  ("cascadeOptions",
                                   default (JObj []) (dict_get "cascadeOptions" props))])
                          else None))
                      self
          else self).
Proof.
  intros Hprops Hsource.
  unfold _analyze_mdm_field. cbn [py_get mbind result_bind]. rewrite Hprops.
  cbn [py_get py_in py_getitem mbind result_bind].
  fold (cascade_of props). unfold source_of in Hsource.
  destruct (dict_get "options" props) as [o|] eqn:Eo;
    [rewrite (dict_has_some _ _ _ Eo) | rewrite (dict_has_none _ _ Eo)];
    cbn [mbind result_bind];
    (destruct (dict_get "optionsBinder" props) as [b|] eqn:Eb;
     [rewrite (dict_has_some _ _ _ Eb) | rewrite (dict_has_none _ _ Eb)];
     cbn [mbind result_bind]).
  all: try (destruct b; cbn [py_get mbind result_bind];
            try rewrite Hsource; cbn [mbind result_bind]).
  all: try (injection Hsource as <-).
  all: eexists;
    match goal with
    | |- context [negb ?b || cascade_of ?p] =>
        destruct (negb b || cascade_of p); reflexivity
    end.
Qed.

Lemma record_changes (dep : MDMDependency) (self : analyzer) : record dep self <> self.
Proof.
  intros E. apply (f_equal (fun a => length (self_dependencies a))) in E.
  simpl in E. rewrite length_app in E. simpl in E. lia.
Qed.

(** C3.  For a candidate field whose properties are a mapping, one
    dependency is appended if and only if the options source is not [static]
    or the field has an AJAX cascade.  A field without [optionsBinder],
    [controlField] and [cascadeOptions] is left out, and a field with a
    [controlField] that holds a value and no [optionsBinder] is recorded
    with source [static] and the cascade flag set. *)
Theorem mdm_field_recorded_iff (fields props : list (string * json))
    (fid fname : json) (t : string) (self : analyzer) :
  default (JObj []) (dict_get "properties" fields) = JObj props ->
  (forall source : string, source_of props = Ok source ->
     exists self' : analyzer,
       _analyze_mdm_field (JObj fields) fid fname t self = Ok self' /\
       ((exists dep, self' = record dep self) <->
        (source <> "static" \/ cascade_of props = true)) /\
       ((source <> "static" \/ cascade_of props = true) ->
        exists dep, self' = record dep self /\
          options_source dep = source /\
          has_ajax_cascade dep = cascade_of props /\
          field_type dep = t /\ form_id dep = fid /\ form_name dep = fname) /\
       (source = "static" -> cascade_of props = false -> self' = self)) /\
  (dict_get "optionsBinder" props = None ->
   dict_get "controlField" props = None ->
   dict_get "cascadeOptions" props = None ->
     _analyze_mdm_field (JObj fields) fid fname t self = Ok self) /\
  (forall v : json,
     dict_get "optionsBinder" props = None ->
     dict_get "controlField" props = Some v -> truthy v = true ->
     exists dep,
       _analyze_mdm_field (JObj fields) fid fname t self = Ok (record dep self) /\
       options_source dep = "static" /\ has_ajax_cascade dep = true).
Proof.
  intros Hprops. split; [|split].
  - intros source Hsource.
    destruct (analyze_mdm_field_spec fields props fid fname t source self
                Hprops Hsource) as [config E].
    eexists. split; [exact E|].
    destruct (String.eqb_spec source "static") as [->|Hne]; simpl negb;
      destruct (cascade_of props) eqn:C; cbn [orb].
    + split; [|split].
      * split; [by right | eauto].
      * intros _. eexists. repeat split.
      * discriminate.
    + split; [|split].
      * split; [|intros [N|N]; congruence].
        intros [dep E']. symmetry in E'. by apply record_changes in E'.
      * intros [N|N]; congruence.
      * reflexivity.
    + split; [|split].
      * split; [by left | eauto].
      * intros _. eexists. repeat split.
      * congruence.
    + split; [|split].
      * split; [by left | eauto].
      * intros _. eexists. repeat split.
      * congruence.
  - intros Eb Ec Eo.
    assert (source_of props = Ok "static") as Hsource
      by (unfold source_of; rewrite Eb; reflexivity).
    destruct (analyze_mdm_field_spec fields props fid fname t "static" self
                Hprops Hsource) as [config E].
    rewrite E. unfold cascade_of. rewrite Ec, Eo. reflexivity.
  - intros v Eb Ec Tv.
    assert (source_of props = Ok "static") as Hsource
      by (unfold source_of; rewrite Eb; reflexivity).
    destruct (analyze_mdm_field_spec fields props fid fname t "static" self
                Hprops Hsource) as [config E].
    assert (cascade_of props = true) as C
      by (unfold cascade_of; rewrite Ec; simpl; rewrite Tv; reflexivity).
    rewrite E, C. eexists. repeat split.
Qed.

Lemma mdm_field_recorded_iff_witness :
  exists dep,
    _analyze_mdm_field (JObj cascading_field) (JStr "f1") (JStr "Form 1")
      "selectBox" init = Ok (record dep init) /\
    options_source dep = "static" /\ has_ajax_cascade dep = true.
Proof.
  exact (proj2 (proj2 (mdm_field_recorded_iff cascading_field _
                         (JStr "f1") (JStr "Form 1") "selectBox" init eq_refl))
           (JStr "country") eq_refl eq_refl eq_refl).
Defined.

Example static_only_field_not_recorded :
  _analyze_mdm_field
    (JObj [("className", JStr "org.joget.apps.form.lib.SelectBox");
           ("properties", JObj [("id", JStr "color");
                                ("options", JArr [JObj [("value", JStr "r")]])])])
    (JStr "f1") (JStr "Form 1") "selectBox" init = Ok init.
Proof. reflexivity. Qed.

Example empty_control_field_not_recorded :
  _analyze_mdm_field
    (JObj [("className", JStr "org.joget.apps.form.lib.SelectBox");
           ("properties", JObj [("id", JStr "color"); ("options", JArr []);
                                ("controlField", JStr "")])])
    (JStr "f1") (JStr "Form 1") "selectBox" init = Ok init.
Proof. reflexivity. Qed.

Example binder_field_recorded_as_unknown :
  (fun r => match r with
            | Ok self => options_source <$> self_dependencies self
            | Raise _ => []
            end)
    (_analyze_mdm_field
       (JObj [("className", JStr "org.joget.apps.form.lib.SelectBox");
              ("properties",
               JObj [("id", JStr "dept");
                     ("optionsBinder",
                      JObj [("className",
                             JStr "org.joget.plugin.enterprise.JdbcOptionsBinder");
                            ("properties", JObj [("sql", JStr "select 1")])])])])
       (JStr "f1") (JStr "Form 1") "selectBox" init) = ["unknown"].
Proof. reflexivity. Qed.

End Recording.

(** ** Scanner: the report *)

Lemma bind_Ok {A B : Type} (m : result A) (f : A -> result B) (b : B) :
  m ≫= f = Ok b -> exists a, m = Ok a /\ f a = Ok b.
Proof. destruct m as [a|e]; [eauto | discriminate]. Qed.

Section StatisticsFacts.

Lemma sum_counts_insert (k : string) (n : nat) (m : gmap string nat) :
  m !! k = None -> sum_counts (<[k := n]> m) = (n + sum_counts m)%nat.
Proof.
  intros E. unfold sum_counts.
  rewrite map_fold_insert_L; [reflexivity | intros; lia | exact E].
Qed.

Lemma sum_counts_count_up (k : string) (m : gmap string nat) :
  sum_counts (count_up k m) = S (sum_counts m).
Proof.
  unfold count_up. destruct (m !! k) as [n|] eqn:E; cbn [from_option id].
  - rewrite <- (insert_delete_eq m k (n + 1)%nat).
    rewrite <- (insert_delete_id m k n E) at 2.
    rewrite !sum_counts_insert by apply lookup_delete_eq. lia.
  - rewrite sum_counts_insert by exact E. lia.
Qed.

Lemma count_up_lookup (k k' : string) (m : gmap string nat) :
  default 0%nat (count_up k m !! k') =
  ((if decide (k = k') then 1 else 0) + default 0%nat (m !! k'))%nat.
Proof.
  unfold count_up. destruct (decide (k = k')) as [->|Hne].
  - rewrite lookup_insert_eq. cbn [from_option id]. lia.
  - rewrite lookup_insert_ne by exact Hne. reflexivity.
Qed.

Lemma occurrences_cons (key : MDMDependency -> string) (k : string)
    (d : MDMDependency) (deps : list MDMDependency) :
  occurrences key k (d :: deps) =
  ((if decide (key d = k) then 1 else 0) + occurrences key k deps)%nat.
Proof.
  unfold occurrences. rewrite filter_cons.
  destruct (decide (key d = k)); reflexivity.
Qed.

(** What the loop of [_generate_statistics] adds to the counters it starts
    from. *)
Lemma count_dependencies (deps : list MDMDependency) (st : Statistics) :
  let st' := foldl count_dependency st deps in
  sum_counts (by_field_type st') =
    (sum_counts (by_field_type st) + length deps)%nat /\
  sum_counts (by_options_source st') =
    (sum_counts (by_options_source st) + length deps)%nat /\
  ajax_cascade_count st' =
    (ajax_cascade_count st
     + length (filter (fun d => has_ajax_cascade d = true) deps))%nat /\
  unique_forms_with_mdm st' = unique_forms_with_mdm st /\
  (forall k, default 0%nat (by_field_type st' !! k) =
             (default 0%nat (by_field_type st !! k)
              + occurrences field_type k deps)%nat) /\
  (forall k, default 0%nat (by_options_source st' !! k) =
             (default 0%nat (by_options_source st !! k)
              + occurrences options_source k deps)%nat).
Proof.
  revert st. induction deps as [|d deps IH]; intros st; cbn [foldl].
  - cbv zeta. unfold occurrences. rewrite !filter_nil. simpl.
    repeat split; intros; lia.
  - specialize (IH (count_dependency st d)). cbv zeta in *.
    destruct IH as (F & O & A & U & Fk & Ok').
    rewrite F, O, A, U. unfold count_dependency at 1 2 3 4. cbn [by_field_type
      by_options_source ajax_cascade_count unique_forms_with_mdm].
    rewrite !sum_counts_count_up, filter_cons. cbn [length].
    split; [lia|]. split; [lia|]. split.
    { destruct (has_ajax_cascade d); simpl; lia. }
    split; [reflexivity|]. split.
    + intros k. rewrite Fk. unfold count_dependency. cbn [by_field_type].
      rewrite count_up_lookup, occurrences_cons. lia.
    + intros k. rewrite Ok'. unfold count_dependency. cbn [by_options_source].
      rewrite count_up_lookup, occurrences_cons. lia.
Qed.

Lemma form_id_set_spec (deps : list MDMDependency) (forms : gset hkey) :
  form_id_set deps = Ok forms ->
  forall k, k ∈ forms <-> exists d, d ∈ deps /\ py_hash (form_id d) = Ok k.
Proof.
  revert forms. induction deps as [|d deps IH]; intros forms; cbn [form_id_set].
  - intros [= <-] k. split.
    + intros H. by apply not_elem_of_empty in H.
    + intros (d & H & _). by apply elem_of_nil in H.
  - intros H. apply bind_Ok in H as (kd & Ed & H).
    apply bind_Ok in H as (s & Es & H). injection H as <-.
    intros k. rewrite elem_of_union, elem_of_singleton, (IH s Es k). split.
    + intros [->|(x & Hx & Ex)].
      * exists d. split; [apply elem_of_cons; by left | exact Ed].
      * exists x. split; [apply elem_of_cons; by right | exact Ex].
    + intros (x & Hx & Ex). apply elem_of_cons in Hx as [->|Hx].
      * left. congruence.
      * right. eauto.
Qed.

End StatisticsFacts.

Section Report.

Variable json_loads : string -> result json.
Variable depth : nat.

(** C4.  The report of a scan that completes counts its dependencies:
    [total_mdm_fields] is the length of [dependencies]. *)
Theorem total_mdm_fields_is_length (export : result json) (self : analyzer)
    (report : AnalysisReport) (self' : analyzer) :
  analyze json_loads depth export self = Ok (report, self') ->
  total_mdm_fields report = length (dependencies report).
Proof.
  unfold analyze. intros H.
  apply bind_Ok in H as (app_data & _ & H).
  apply bind_Ok in H as ([forms self1] & _ & H).
  apply bind_Ok in H as (total & _ & H).
  apply bind_Ok in H as (items & _ & H).
  apply bind_Ok in H as (self2 & _ & H).
  apply bind_Ok in H as (stats & _ & H).
  apply bind_Ok in H as (app_id & _ & H).
  apply bind_Ok in H as (app_name & _ & H).
  injection H as <- _. reflexivity.
Qed.

(** C10.  In the report of a scan that completes, the statistics agree with
    the dependency list: the counts by field type and the counts by options
    source each add up to [total_mdm_fields] (every key holds the number of
    dependencies with that key), [ajax_cascade_count] is the number of
    dependencies with the cascade flag set, and [unique_forms_with_mdm] is
    the number of distinct form identifiers among the dependencies. *)
Theorem statistics_consistent (export : result json) (self : analyzer)
    (report : AnalysisReport) (self' : analyzer) :
  analyze json_loads depth export self = Ok (report, self') ->
  let st := statistics report in
  let deps := dependencies report in
  sum_counts (by_field_type st) = total_mdm_fields report /\
  sum_counts (by_options_source st) = total_mdm_fields report /\
  (forall k, default 0%nat (by_field_type st !! k) = occurrences field_type k deps) /\
  (forall k, default 0%nat (by_options_source st !! k)
             = occurrences options_source k deps) /\
  ajax_cascade_count st = length (filter (fun d => has_ajax_cascade d = true) deps) /\
  (ajax_cascade_count st <= total_mdm_fields report)%nat /\
  exists keys : list hkey,
    NoDup keys /\
    (forall k, k ∈ keys <-> exists d, d ∈ deps /\ py_hash (form_id d) = Ok k) /\
    unique_forms_with_mdm st = length keys.
Proof.
  unfold analyze. intros H.
  apply bind_Ok in H as (app_data & _ & H).
  apply bind_Ok in H as ([forms self1] & _ & H).
  apply bind_Ok in H as (total & _ & H).
  apply bind_Ok in H as (items & _ & H).
  apply bind_Ok in H as (self2 & _ & H).
  apply bind_Ok in H as (stats & Hstats & H).
  apply bind_Ok in H as (app_id & _ & H).
  apply bind_Ok in H as (app_name & _ & H).
  injection H as <- _.
  cbn [statistics dependencies total_mdm_fields].
  unfold _generate_statistics in Hstats.
  apply bind_Ok in Hstats as (ids & Hids & Hstats). injection Hstats as <-.
  destruct (count_dependencies (self_dependencies self2)
              (mkStatistics ∅ ∅ 0 (size ids))) as (F & O & A & U & Fk & Ok').
  cbv zeta. cbn [by_field_type by_options_source ajax_cascade_count
                 unique_forms_with_mdm] in *.
  unfold sum_counts in F, O. rewrite map_fold_empty in F, O.
  split; [exact F|]. split; [exact O|].
  split; [intros k; rewrite Fk, lookup_empty; reflexivity|].
  split; [intros k; rewrite Ok', lookup_empty; reflexivity|].
  split; [exact A|].
  split; [rewrite A; apply length_filter|].
  exists (elements ids). split; [apply NoDup_elements|]. split.
  - intros k. rewrite elem_of_elements. by apply form_id_set_spec.
  - rewrite U. reflexivity.
Qed.

(** C7.  [_get_forms] takes the value of [forms] when the key is present and
    of [formDefinitionList] otherwise; when the application document has
    neither key it returns the empty list and records one warning, and the
    scan completes with a report of no forms. *)
Theorem missing_forms_is_recoverable (fields : list (string * json))
    (deps : list MDMDependency) (warns : list string) :
  let self := mkAnalyzer deps warns (JObj fields) in
  (forall v, dict_get "forms" fields = Some v -> _get_forms self = Ok (v, self)) /\
  (forall v, dict_get "forms" fields = None ->
             dict_get "formDefinitionList" fields = Some v ->
             _get_forms self = Ok (v, self)) /\
  (dict_get "forms" fields = None ->
   dict_get "formDefinitionList" fields = None ->
     _get_forms self =
       Ok (JArr [], mkAnalyzer deps (warns ++ [no_forms_warning]) (JObj fields)) /\
     exists report self',
       analyze json_loads depth (Ok (JObj fields)) init = Ok (report, self') /\
       total_forms report = 0%nat /\
       warnings report = [no_forms_warning] /\
       dependencies report = [] /\
       total_mdm_fields report = 0%nat).
Proof.
  cbv zeta. unfold _get_forms.
  cbn [self_app_data py_in py_getitem mbind result_bind].
  split; [|split].
  - intros v E. rewrite (dict_has_some _ _ _ E), E. reflexivity.
  - intros v E E'.
    rewrite (dict_has_none _ _ E), (dict_has_some _ _ _ E'), E'. reflexivity.
  - intros E E'. split.
    + rewrite (dict_has_none _ _ E), (dict_has_none _ _ E'). reflexivity.
    + unfold analyze, _get_forms.
      cbn [_load_app_export init self_app_data self_dependencies self_warnings
           py_in py_getitem mbind result_bind].
      rewrite (dict_has_none _ _ E), (dict_has_none _ _ E').
      cbn [py_len py_iter for_each length mbind result_bind self_app_data
           self_dependencies self_warnings _generate_statistics form_id_set
           foldl py_get].
      eexists _, _. split; [reflexivity|]. repeat split.
Qed.

End Report.

(** ** Scanner: the recursion limit *)

Section Depth.














Lemma height_dict_get (k : string) (d : list (string * json)) (v : json) :
  dict_get k d = Some v -> (height v < height (JObj d))%nat.
Proof.
  cbn [height]. induction d as [|[k' v'] d IH]; cbn [dict_get foldr]; [discriminate|].
  destruct (String.eqb k k').
  - intros [= ->]. simpl. lia.
  - intros H. specialize (IH H). simpl. lia.
Qed.



Lemma height_get (k : string) (dflt v : json) (d : list (string * json)) :
  py_get k dflt (JObj d) = Ok v -> height dflt = 1%nat \/ height dflt = 0%nat ->
  (height v <= height (JObj d))%nat.
Proof.
  cbn [py_get]. intros [= <-] Hd.
  destruct (dict_get k d) as [v|] eqn:E; cbn [from_option id].
  - apply height_dict_get in E. lia.
  - cbn [height]. lia.
Qed.




Example sample_form_height :
  height (sample_form_definition [sample_select]) = 10%nat.
Proof. reflexivity. Qed.

End Depth.

(** ** Runs on sample inputs *)

Section Samples.

Example sample_scan :
  exists report self',
    analyze sample_loads 10 (Ok sample_app) init = Ok (report, self') /\
    total_forms report = 2%nat /\
    total_mdm_fields report = 1%nat /\
    options_source <$> dependencies report = ["unknown"] /\
    map_to_list (by_options_source (statistics report)) = [("unknown", 1%nat)] /\
    map_to_list (by_field_type (statistics report)) = [("selectBox", 1%nat)] /\
    unique_forms_with_mdm (statistics report) = 1%nat /\
    warnings report = [].
Proof. vm_compute. eexists _, _. repeat split. Qed.

Example sample_scan_too_deep :
  analyze sample_loads 3 (Ok sample_app) init =
    Raise (Exn RecursionError "maximum recursion depth exceeded").
Proof. reflexivity. Qed.

Example array_document_fails :
  _get_forms (mkAnalyzer [] [] (JArr [])) =
    Ok (JArr [], mkAnalyzer [] [no_forms_warning] (JArr [])) /\
  analyze sample_loads 10 (Ok (JArr [])) init =
    Raise (Exn AttributeError "object has no attribute 'get'").
Proof. split; reflexivity. Qed.

Example unreadable_export_exits :
  analyze sample_loads 10 (Raise (Exn ValueError "No JSON files found in export")) init
    = Raise (Exn SystemExit "1").
Proof. reflexivity. Qed.

Lemma overall_status_severity_witness :
  _calculate_overall_status
    [mkCheckResult "Web Interface" HEALTHY "" [];
     mkCheckResult "Database Connection" UNKNOWN "" [];
     mkCheckResult "Admin Console" DEGRADED "" []] = DEGRADED.
Proof.
  apply (proj1 (proj2 (overall_status_severity _))).
  - intros (r & Hr & S).
    repeat (apply elem_of_cons in Hr as [->|Hr]; [discriminate S|]).
    by apply elem_of_nil in Hr.
  - exists (mkCheckResult "Admin Console" DEGRADED "" []).
    split; [|reflexivity].
    apply elem_of_cons; right. apply elem_of_cons; right.
    apply elem_of_cons; left. reflexivity.
Defined.

Lemma disk_space_thresholds_witness :
  exists r, _check_disk_space (df_output "80%") [] = [r] /\ status r = DEGRADED.
Proof.
  destruct (disk_space_thresholds (df_output "80%") []) as (r & E & P & _).
  exists r. split; [exact E|].
  apply (proj1 (proj2 (P 80 eq_refl))). lia.
Defined.

Lemma web_interface_classification_witness :
  exists r,
    _check_web_interface (mkConfig 8081 3309 (Some "9.0.0"))
      (GetRaises (Exn ReadTimeout "Read timed out.")) [] = [r] /\
    status r = DEGRADED.
Proof.
  destruct (web_interface_classification (mkConfig 8081 3309 (Some "9.0.0"))
              (GetRaises (Exn ReadTimeout "Read timed out.")) [])
    as (r & E & _ & _ & _ & T & _).
  exists r. split; [exact E|]. apply T; reflexivity.
Defined.

Lemma field_type_tag_and_candidates_witness :
  _get_field_type (JStr "org.joget.apps.form.lib.SelectBox") = Ok (JStr "selectBox").
Proof.
  apply (proj1 (proj2 (proj1 (proj2 (proj2
           (field_type_tag_and_candidates "org.joget.apps.form.lib.SelectBox")))
           "org.joget.apps.form.lib" "SelectBox" eq_refl
           ltac:(simpl; intros H; decompose [or] H; try discriminate; assumption)))).
  reflexivity.
Defined.

Lemma total_mdm_fields_is_length_witness :
  exists report self',
    analyze sample_loads 10 (Ok sample_app) init = Ok (report, self') /\
    total_mdm_fields report = length (dependencies report).
Proof.
  assert (exists report self',
            analyze sample_loads 10 (Ok sample_app) init = Ok (report, self'))
    as (report & self' & E) by (vm_compute; eauto).
  exists report, self'. split; [exact E|].
  exact (total_mdm_fields_is_length sample_loads 10 _ _ _ _ E).
Defined.

Lemma statistics_consistent_witness :
  exists report self',
    analyze sample_loads 10 (Ok sample_app) init = Ok (report, self') /\
    sum_counts (by_field_type (statistics report)) = total_mdm_fields report /\
    sum_counts (by_options_source (statistics report)) = total_mdm_fields report /\
    (ajax_cascade_count (statistics report) <= total_mdm_fields report)%nat.
Proof.
  assert (exists report self',
            analyze sample_loads 10 (Ok sample_app) init = Ok (report, self'))
    as (report & self' & E) by (vm_compute; eauto).
  exists report, self'. split; [exact E|].
  destruct (statistics_consistent sample_loads 10 _ _ _ _ E)
    as (F & O & _ & _ & _ & A & _).
  split; [exact F|]. split; [exact O | exact A].
Defined.

Lemma missing_forms_is_recoverable_witness :
  exists report self',
    analyze sample_loads 10 (Ok (JObj [("appId", JStr "frs")])) init
      = Ok (report, self') /\
    total_forms report = 0%nat /\
    warnings report = [no_forms_warning] /\
    dependencies report = [] /\
    total_mdm_fields report = 0%nat.
Proof.
  exact (proj2 (proj2 (proj2 (missing_forms_is_recoverable sample_loads 10
                                [("appId", JStr "frs")] [] []))
                  eq_refl eq_refl)).
Defined.

End Samples.

(** ** Health evaluator: the remaining checks and the exit status *)

Section MoreHealthFacts.

Lemma count_status_app (s : HealthStatus) (l1 l2 : list CheckResult) :
  count_status s (l1 ++ l2) = (count_status s l1 + count_status s l2)%nat.
Proof. unfold count_status. rewrite filter_app, length_app. reflexivity. Qed.

Lemma overall_status_app (l1 l2 : list CheckResult) :
  _calculate_overall_status (l1 ++ l2) =
    worst (_calculate_overall_status l1) (_calculate_overall_status l2).
Proof.
  unfold _calculate_overall_status. rewrite !count_status_app.
  destruct (count_status UNHEALTHY l1), (count_status UNHEALTHY l2),
    (count_status DEGRADED l1), (count_status DEGRADED l2),
    (count_status UNKNOWN l1), (count_status UNKNOWN l2); reflexivity.
Qed.

Lemma overall_status_bound (results : list CheckResult) (r : CheckResult) :
  r ∈ results ->
  (severity (status r) <= severity (_calculate_overall_status results))%nat.
Proof.
  intros Hr.
  assert (has_status (status r) results) as H
    by (exists r; split; [exact Hr | reflexivity]).
  apply count_status_some in H. unfold _calculate_overall_status.
  destruct (status r); simpl;
    repeat (destruct (0 <? count_status _ results)%nat; simpl; try lia);
    discriminate.
Qed.

Lemma overall_status_attained (results : list CheckResult) :
  _calculate_overall_status results = HEALTHY \/
  has_status (_calculate_overall_status results) results.
Proof.
  unfold _calculate_overall_status.
  destruct (0 <? count_status UNHEALTHY results)%nat eqn:U.
  { right. apply count_status_pos, Nat.ltb_lt, U. }
  destruct (0 <? count_status DEGRADED results)%nat eqn:D.
  { right. apply count_status_pos, Nat.ltb_lt, D. }
  destruct (0 <? count_status UNKNOWN results)%nat eqn:K.
  { right. apply count_status_pos, Nat.ltb_lt, K. }
  by left.
Qed.

(** X1.  The overall status of two batches of results taken together is the
    more severe of their overall statuses; it is at least as severe as every
    result, and unless it is HEALTHY some result has it. *)
Theorem overall_status_is_worst (l1 l2 : list CheckResult) :
  _calculate_overall_status (l1 ++ l2) =
    worst (_calculate_overall_status l1) (_calculate_overall_status l2) /\
  (forall r, r ∈ l1 ->
     (severity (status r) <= severity (_calculate_overall_status l1))%nat) /\
  (_calculate_overall_status l1 = HEALTHY \/
   has_status (_calculate_overall_status l1) l1).
Proof.
  split; [apply overall_status_app|].
  split; [intros r; apply overall_status_bound | apply overall_status_attained].
Qed.

Lemma database_status (cfg : config) (first retry : run_outcome)
    (results : list CheckResult) :
  exists r, _check_database_connection cfg first retry results = results ++ [r] /\
    check_name r = "Database Connection" /\
    status r =
      let raised (e : exn) :=
        if isinstance e TimeoutExpired then DEGRADED else UNKNOWN in
      match first with
      | Completed rc _ =>
          if rc =? 0 then HEALTHY
          else match retry with
               | Completed rc' _ => if rc' =? 0 then HEALTHY else DEGRADED
               | RunRaises e => raised e
               end
      | RunRaises e => raised e
      end.
Proof.
  unfold _check_database_connection, database_except, append. cbv zeta.
  repeat case_match; eexists; repeat split; reflexivity.
Qed.

(** X2.  The database check appends one result and is never UNHEALTHY: a
    first run returning 0 is HEALTHY without a second run; otherwise the
    retry decides, HEALTHY on 0 and DEGRADED on anything else; an exception
    of either run is DEGRADED when it is [TimeoutExpired] and UNKNOWN
    otherwise (a missing client included). *)
Theorem database_check_classification (cfg : config) (first retry : run_outcome)
    (results : list CheckResult) :
  exists r, _check_database_connection cfg first retry results = results ++ [r] /\
    check_name r = "Database Connection" /\
    status r <> UNHEALTHY /\
    (forall out, first = Completed 0 out -> status r = HEALTHY) /\
    (forall rc out out', first = Completed rc out -> rc <> 0 ->
       retry = Completed 0 out' -> status r = HEALTHY) /\
    (forall rc out rc' out', first = Completed rc out -> rc <> 0 ->
       retry = Completed rc' out' -> rc' <> 0 -> status r = DEGRADED) /\
    (forall e,
       first = RunRaises e \/
       (exists rc out, first = Completed rc out /\ rc <> 0 /\ retry = RunRaises e) ->
       (isinstance e TimeoutExpired = true -> status r = DEGRADED) /\
       (isinstance e TimeoutExpired = false -> status r = UNKNOWN)).
Proof.
  destruct (database_status cfg first retry results) as (r & E & N & S).
  cbv zeta in S.
  exists r. split; [exact E|]. split; [exact N|]. rewrite S. clear E N S.
  split; [|split; [|split; [|split]]].
  - repeat case_match; discriminate.
  - intros out ->. reflexivity.
  - intros rc out out' -> Hrc ->.
    destruct (Z.eqb_spec rc 0); [contradiction | reflexivity].
  - intros rc out rc' out' -> Hrc -> Hrc'.
    destruct (Z.eqb_spec rc 0); [contradiction|].
    destruct (Z.eqb_spec rc' 0); [contradiction | reflexivity].
  - intros e [->|(rc & out & -> & Hrc & ->)].
    + split; intros ->; reflexivity.
    + destruct (Z.eqb_spec rc 0); [contradiction|].
      split; intros ->; reflexivity.
Qed.

(** X3.  The admin console check appends one result that is HEALTHY or
    DEGRADED, and HEALTHY exactly when a response came with status code 200,
    302 or 401; every exception is DEGRADED. *)
Theorem admin_console_classification (cfg : config) (o : http_outcome)
    (results : list CheckResult) :
  exists r, _check_admin_console cfg o results = results ++ [r] /\
    check_name r = "Admin Console" /\
    (status r = HEALTHY \/ status r = DEGRADED) /\
    (status r = HEALTHY <->
     exists code elapsed,
       o = Response code elapsed /\ (code = 200 \/ code = 302 \/ code = 401)).
Proof.
  unfold _check_admin_console, append. destruct o as [code elapsed|e].
  - destruct (bool_decide (code ∈ [200; 302; 401])) eqn:B;
      (eexists; split; [reflexivity|]); simpl;
      (split; [reflexivity|]).
    + apply bool_decide_eq_true in B. split; [by left|].
      split; [intros _ | reflexivity]. exists code, elapsed. split; [reflexivity|].
      repeat (apply elem_of_cons in B as [B|B]; [tauto|]).
      by apply elem_of_nil in B.
    + apply bool_decide_eq_false in B. split; [by right|].
      split; [discriminate|]. intros (c & el & Heq & H). injection Heq as <- <-. exfalso. apply B.
      destruct H as [-> | [-> | ->]];
        repeat first [apply list_elem_of_here | apply list_elem_of_further].
  - eexists. split; [reflexivity|]. simpl. split; [reflexivity|].
    split; [by right|]. split; [discriminate|].
    intros (c & el & H & _). discriminate.
Qed.



(** The branch of the memory check agrees with the figures read from the
    output of the tool. *)
Lemma memory_status (used_percent_of : Z -> Z -> result Z) (o : run_outcome)
    (results : list CheckResult) :
  exists r, _check_memory_usage used_percent_of o results = results ++ [r] /\
    check_name r = "Memory Usage" /\
    status r = match parsed_memory o with
               | Some (total, used) =>
                   match used_percent_of used total with
                   | Ok p => tier p
                   | Raise _ => UNKNOWN
                   end
               | None => UNKNOWN
               end.
Proof.
  unfold _check_memory_usage, parsed_memory, append, int_or_raise.
  destruct o as [rc stdout|e]; cbv zeta;
    [|case_match; eexists; repeat split; reflexivity].
  set (lines := Py.split LF (Py.strip stdout)).
  destruct (2 <=? length lines)%nat eqn:L2.
  - apply Nat.leb_le in L2.
    destruct (lookup_lt_is_Some_2 lines 1%nat ltac:(lia)) as [line Hline].
    rewrite (list_lookup_total_correct _ _ _ Hline), Hline.
    cbn [mbind option_bind].
    set (parts := Py.split_ws line).
    destruct (3 <=? length parts)%nat eqn:L3.
    + apply Nat.leb_le in L3.
      destruct (lookup_lt_is_Some_2 parts 2%nat ltac:(lia)) as [used Hused].
      destruct (lookup_lt_is_Some_2 parts 1%nat ltac:(lia)) as [total Htotal].
      rewrite (list_lookup_total_correct _ _ _ Hused), Hused,
        (list_lookup_total_correct _ _ _ Htotal), Htotal.
      cbn [mbind option_bind].
      destruct (Py.int total) as [t|]; cbn [mbind option_bind];
        [|case_match; eexists; repeat split; reflexivity].
      destruct (Py.int used) as [u|]; cbn [mbind option_bind];
        [|case_match; eexists; repeat split; reflexivity].
      destruct (used_percent_of u t) as [p|e];
        [|case_match]; eexists; repeat split; reflexivity.
    + apply Nat.leb_gt in L3.
      rewrite (lookup_ge_None_2 parts 2%nat) by lia.
      eexists; repeat split; reflexivity.
  - apply Nat.leb_gt in L2.
    rewrite (lookup_ge_None_2 lines 1%nat) by lia.
    eexists; repeat split; reflexivity.
Qed.

(** X5.  The memory check appends one result.  When total and used memory
    are read from the tool and the percentage computes to [p], the status is
    HEALTHY below 80, DEGRADED from 80 to below 90 and UNHEALTHY from 90 on;
    when the figures cannot be read, or the percentage cannot be computed
    (a total of zero), it is UNKNOWN. *)
Theorem memory_usage_thresholds (used_percent_of : Z -> Z -> result Z)
    (o : run_outcome) (results : list CheckResult) :
  exists r, _check_memory_usage used_percent_of o results = results ++ [r] /\
    (forall total used p,
       parsed_memory o = Some (total, used) -> used_percent_of used total = Ok p ->
       (p < 80 -> status r = HEALTHY) /\
       (80 <= p < 90 -> status r = DEGRADED) /\
       (90 <= p -> status r = UNHEALTHY)) /\
    (forall total used e,
       parsed_memory o = Some (total, used) -> used_percent_of used total = Raise e ->
       status r = UNKNOWN) /\
    (parsed_memory o = None -> status r = UNKNOWN).
Proof.
  destruct (memory_status used_percent_of o results) as (r & E & _ & S).
  exists r. split; [exact E|]. split; [|split].
  - intros total used p Hp Hf. rewrite Hp, Hf in S. rewrite S. unfold tier.
    split; [|split]; intros H.
    + destruct (Z.ltb_spec p 80); [reflexivity | lia].
    + destruct (Z.ltb_spec p 80); [lia|].
      destruct (Z.ltb_spec p 90); [reflexivity | lia].
    + destruct (Z.ltb_spec p 80); [lia|].
      destruct (Z.ltb_spec p 90); [lia | reflexivity].
  - intros total used e Hp Hf. rewrite Hp, Hf in S. exact S.
  - intros Hn. rewrite Hn in S. exact S.
Qed.

Example memory_check_samples :
  status <$> _check_memory_usage sample_percent (free_output "1000" "790") []
    = [HEALTHY] /\
  status <$> _check_memory_usage sample_percent (free_output "1000" "800") []
    = [DEGRADED] /\
  status <$> _check_memory_usage sample_percent (free_output "1000" "900") []
    = [UNHEALTHY] /\
  status <$> _check_memory_usage sample_percent (free_output "0" "0") []
    = [UNKNOWN] /\
  status <$> _check_memory_usage sample_percent (free_output "n/a" "1") []
    = [UNKNOWN] /\
  status <$> _check_memory_usage sample_percent
    (RunRaises (Exn FileNotFoundError "No such file or directory: 'free'")) []
    = [UNKNOWN].
Proof. repeat split; reflexivity. Qed.

Lemma overall_healthy_iff (results : list CheckResult) :
  _calculate_overall_status results = HEALTHY <->
  forall r, r ∈ results -> status r = HEALTHY.
Proof.
  split.
  - intros H r Hr. pose proof (overall_status_bound results r Hr) as Bound.
    rewrite H in Bound.
    destruct (status r); simpl in Bound; [reflexivity | lia ..].
  - intros H. destruct (overall_status_attained results) as [E|(r & Hr & E)];
      [exact E|].
    rewrite <- E. by apply H.
Qed.

Lemma overall_unhealthy_iff (results : list CheckResult) :
  _calculate_overall_status results = UNHEALTHY <->
  exists r, r ∈ results /\ status r = UNHEALTHY.
Proof.
  split.
  - intros H. destruct (overall_status_attained results) as [E|A]; [congruence|].
    rewrite H in A. exact A.
  - intros H. unfold _calculate_overall_status.
    rewrite (count_status_some UNHEALTHY results H). reflexivity.
Qed.

Lemma exit_code_by_status (all_results : list (string * instance_report)) :
  (exit_code all_results = 0 <->
   forall name rep, (name, rep) ∈ all_results -> rep.1 = HEALTHY) /\
  (exit_code all_results = 2 <->
   exists name rep, (name, rep) ∈ all_results /\ rep.1 = UNHEALTHY) /\
  (exit_code all_results = 1 <->
   (forall name rep, (name, rep) ∈ all_results -> rep.1 <> UNHEALTHY) /\
   (exists name rep, (name, rep) ∈ all_results /\
      (rep.1 = DEGRADED \/ rep.1 = UNKNOWN))) /\
  (exit_code all_results = 0 \/ exit_code all_results = 1 \/
   exit_code all_results = 2).
Proof.
  unfold exit_code.
  match goal with
  | |- context [forallb ?f all_results] => destruct (forallb f all_results) eqn:A
  end.
  - rewrite forallb_forall in A.
    assert (forall name rep, (name, rep) ∈ all_results -> rep.1 = HEALTHY) as All.
    { intros name rep H. apply list_elem_of_In, A in H.
      by apply bool_decide_eq_true in H. }
    split; [tauto|]. split; [|split; [|tauto]].
    + split; [discriminate|]. intros (name & rep & H & E).
      rewrite (All _ _ H) in E. discriminate.
    + split; [discriminate|]. intros (_ & name & rep & H & [E|E]);
        rewrite (All _ _ H) in E; discriminate.
  - assert (~ forall name rep, (name, rep) ∈ all_results -> rep.1 = HEALTHY) as NotAll.
    { intros All. rewrite <- not_true_iff_false in A. apply A.
      apply forallb_forall. intros [name rep] H. apply bool_decide_eq_true.
      apply (All name). by apply list_elem_of_In. }
    apply not_true_iff_false in A. rewrite forallb_forall in A.
    match goal with
    | |- context [existsb ?f all_results] => destruct (existsb f all_results) eqn:B
    end.
    + apply existsb_exists in B as ([name rep] & H & E).
      apply bool_decide_eq_true in E. apply list_elem_of_In in H.
      split; [split; [discriminate | contradiction]|].
      split; [split; eauto|]. split; [|tauto].
      split; [discriminate|]. intros (N & _). exfalso. by apply (N name rep).
    + assert (forall name rep, (name, rep) ∈ all_results -> rep.1 <> UNHEALTHY) as None.
      { intros name rep H E. rewrite <- not_true_iff_false in B. apply B.
        apply existsb_exists. exists (name, rep).
        split; [by apply list_elem_of_In | by apply bool_decide_eq_true]. }
      split; [split; [discriminate | contradiction]|].
      split; [split; [discriminate|]|].
      { intros (name & rep & H & E). exfalso. by apply (None name rep). }
      split; [|tauto]. split; [intros _ | reflexivity].
      split; [exact None|].
      destruct (decide (Exists (fun r : string * instance_report =>
                                  r.2.1 = DEGRADED \/ r.2.1 = UNKNOWN) all_results))
        as [Ex|NEx].
      * apply Exists_exists in Ex as ([name rep] & H & E). eauto.
      * exfalso. apply NotAll. intros name rep H.
        destruct (rep.1) eqn:S; [reflexivity | | | ].
        -- exfalso. apply NEx, Exists_exists. exists (name, rep).
           split; [exact H | left; exact S].
        -- exfalso. by apply (None name rep).
        -- exfalso. apply NEx, Exists_exists. exists (name, rep).
           split; [exact H | right; exact S].
Qed.

(** X6.  The exit status is 0 when every instance is HEALTHY overall (also
    when there is none), 2 when some instance is UNHEALTHY overall, and 1 in
    the remaining case: no instance UNHEALTHY, but one DEGRADED or
    UNKNOWN. *)
Theorem exit_code_cases (all_results : list (string * instance_report)) :
  (exit_code all_results = 0 <->
   forall name rep, (name, rep) ∈ all_results -> rep.1 = HEALTHY) /\
  (exit_code all_results = 2 <->
   exists name rep, (name, rep) ∈ all_results /\ rep.1 = UNHEALTHY) /\
  (exit_code all_results = 1 <->
   (forall name rep, (name, rep) ∈ all_results -> rep.1 <> UNHEALTHY) /\
   (exists name rep, (name, rep) ∈ all_results /\
      (rep.1 = DEGRADED \/ rep.1 = UNKNOWN))) /\
  (exit_code all_results = 0 \/ exit_code all_results = 1 \/
   exit_code all_results = 2).
Proof. exact (exit_code_by_status all_results). Qed.


Lemma table_set_fresh {V : Type} (k : string) (v : V) (d : list (string * V)) :
  k ∉ d.*1 -> table_set k v d = d ++ [(k, v)].
Proof.
  induction d as [|[k' v'] d IH]; simpl; intros H; [reflexivity|].
  apply not_elem_of_cons in H as [Hne H].
  destruct (String.eqb_spec k k'); [contradiction|]. by rewrite IH.
Qed.

Lemma table_set_get {V : Type} (k k' : string) (v : V) (d : list (string * V)) :
  table_get k' (table_set k v d) =
    if String.eqb k' k then Some v else table_get k' d.
Proof.
  induction d as [|[k0 v0] d IH]; simpl.
  - reflexivity.
  - destruct (String.eqb_spec k k0) as [->|Hne]; simpl.
    + destruct (String.eqb_spec k' k0); reflexivity.
    + rewrite IH. destruct (String.eqb_spec k' k0) as [->|]; [|reflexivity].
      destruct (String.eqb_spec k0 k); [congruence | reflexivity].
Qed.

Lemma run_all_checks_well_formed (used_percent_of : Z -> Z -> result Z)
    (cfg : config) (w : probes) :
  well_formed_report (run_all_checks used_percent_of cfg w []).
Proof.
  unfold well_formed_report, run_all_checks. cbv zeta.
  destruct (web_interface_appends_one cfg (get_root w) []) as (r1 & -> & N1).
  destruct (database_appends_one cfg (mysql_first w) (mysql_retry w) ([] ++ [r1]))
    as (r2 & -> & N2).
  destruct (admin_console_appends_one cfg (get_console w) (([] ++ [r1]) ++ [r2]))
    as (r3 & -> & N3).
  destruct (process_appends_one cfg (ps_aux w) ((([] ++ [r1]) ++ [r2]) ++ [r3]))
    as (r4 & -> & N4).
  destruct (disk_space_appends_one (df_root w)
              (((([] ++ [r1]) ++ [r2]) ++ [r3]) ++ [r4])) as (r5 & -> & N5).
  destruct (memory_appends_one used_percent_of (free_m w)
              ((((([] ++ [r1]) ++ [r2]) ++ [r3]) ++ [r4]) ++ [r5]))
    as (r6 & -> & N6).
  simpl. split; [|reflexivity]. unfold check_order. congruence.
Qed.

Lemma run_instances_reports (used_percent_of : Z -> Z -> result Z)
    (instances : list (string * option config * probes)) :
  forall acc out,
    NoDup (acc.*1 ++ instances.*1.*1) ->
    (forall name rep, (name, rep) ∈ acc -> well_formed_report rep) ->
    run_instances used_percent_of instances acc = Ok out ->
    out.*1 = acc.*1 ++ instances.*1.*1 /\
    (forall name rep, (name, rep) ∈ out -> well_formed_report rep).
Proof.
  induction instances as [|[[name custom] w] rest IH]; intros acc out ND WF H.
  - injection H as <-. simpl. rewrite app_nil_r. split; [reflexivity | exact WF].
  - cbn [run_instances] in H. apply bind_Ok in H as (cfg & _ & H).
    simpl in ND.
    assert (name ∉ acc.*1) as Fresh.
    { apply NoDup_app in ND as (_ & Hd & _). intros Hin.
      apply (Hd name Hin). apply list_elem_of_here. }
    rewrite (table_set_fresh _ _ _ Fresh) in H.
    apply IH in H.
    + destruct H as [K W]. split; [|exact W].
      rewrite K, fmap_app. simpl. rewrite <- app_assoc. reflexivity.
    + rewrite fmap_app. simpl. rewrite <- app_assoc. exact ND.
    + intros n rep Hin. apply elem_of_app in Hin as [Hin|Hin]; [by eapply WF|].
      apply list_elem_of_singleton in Hin. injection Hin as -> ->.
      apply run_all_checks_well_formed.
Qed.

(** X7.  When [main] checks instances under distinct names and ends with an
    exit status, every instance has a report of six results in the order of
    the checks, and the status is 0 exactly when every check of every
    instance is HEALTHY, 2 exactly when some check of some instance is
    UNHEALTHY, and 1 otherwise. *)
Theorem main_exit_code (used_percent_of : Z -> Z -> result Z)
    (instances : list (string * option config * probes)) (code : Z) :
  NoDup (instances.*1.*1) ->
  main used_percent_of instances = Ok code ->
  exists all_results : list (string * instance_report),
    run_instances used_percent_of instances [] = Ok all_results /\
    all_results.*1 = instances.*1.*1 /\
    (forall name rep, (name, rep) ∈ all_results ->
       check_name <$> rep.2 = check_order) /\
    (code = 0 <->
     forall name rep r, (name, rep) ∈ all_results -> r ∈ rep.2 ->
       status r = HEALTHY) /\
    (code = 2 <->
     exists name rep r, (name, rep) ∈ all_results /\ r ∈ rep.2 /\
       status r = UNHEALTHY) /\
    (code = 0 \/ code = 1 \/ code = 2).
Proof.
  intros ND H. unfold main in H. apply bind_Ok in H as (all_results & R & H).
  injection H as <-. exists all_results. split; [exact R|].
  destruct (run_instances_reports used_percent_of instances [] all_results)
    as [K W]; [exact ND | | exact R |].
  { intros name rep Hin. by apply elem_of_nil in Hin. }
  split; [exact K|]. split; [intros name rep Hin; apply (W name rep Hin)|].
  destruct (exit_code_by_status all_results) as (Zero & Two & _ & Range).
  split; [|split; [|exact Range]].
  - rewrite Zero. split.
    + intros All name rep r Hin Hr.
      destruct (W name rep Hin) as [_ O].
      specialize (All name rep Hin). rewrite O in All.
      by apply (proj1 (overall_healthy_iff _) All).
    + intros All name rep Hin. destruct (W name rep Hin) as [_ O].
      rewrite O. apply overall_healthy_iff. intros r Hr. by apply (All name rep).
  - rewrite Two. split.
    + intros (name & rep & Hin & E). destruct (W name rep Hin) as [_ O].
      rewrite O in E. apply overall_unhealthy_iff in E as (r & Hr & E). eauto 6.
    + intros (name & rep & r & Hin & Hr & E). exists name, rep.
      split; [exact Hin|]. destruct (W name rep Hin) as [_ O]. rewrite O.
      apply overall_unhealthy_iff. eauto.
Qed.

(** Under [--all] the six default instances are known, so [main] always
    reaches its exit status. *)
Lemma main_all_instances_exits (used_percent_of : Z -> Z -> result Z)
    (observe : string -> probes) :
  exists code, main used_percent_of (all_instances observe) = Ok code.
Proof. eexists. reflexivity. Qed.

Lemma main_exit_code_witness :
  exists all_results,
    run_instances sample_percent (all_instances (fun _ => healthy_probes)) []
      = Ok all_results /\
    all_results.*1 = ["jdx1"; "jdx2"; "jdx3"; "jdx4"; "jdx5"; "jdx6"] /\
    (forall name rep r, (name, rep) ∈ all_results -> r ∈ rep.2 ->
       status r = HEALTHY).
Proof.
  assert (NoDup ((all_instances (fun _ => healthy_probes)).*1.*1)) as ND.
  { apply (bool_decide_unpack _). vm_compute. exact I. }
  destruct (main_exit_code sample_percent (all_instances (fun _ => healthy_probes)) 0
              ND eq_refl)
    as (all_results & R & K & _ & Zero & _).
  exists all_results. split; [exact R|]. split; [exact K|].
  apply Zero. reflexivity.
Defined.

Example main_exit_codes :
  main sample_percent (all_instances (fun _ => healthy_probes)) = Ok 0 /\
  main sample_percent
    (all_instances (fun name => if String.eqb name "jdx3" then stopped_probes
                                else healthy_probes)) = Ok 2 /\
  main sample_percent [("jdx9", None, healthy_probes)]
    = Raise (Exn ValueError "Unknown instance: jdx9") /\
  main sample_percent
    [("custom", Some (mkConfig 8090 3320 None), slow_probes)] = Ok 1.
Proof. repeat split; reflexivity. Qed.

End MoreHealthFacts.

(** ** Scanner: what a walk records *)

Section WalkFacts.

Lemma extends_refl (fid fname : json) (self : analyzer) : extends fid fname self self.
Proof.
  repeat split. exists []. rewrite app_nil_r. split; [reflexivity | constructor].
Qed.

Lemma extends_trans (fid fname : json) (a b c : analyzer) :
  extends fid fname a b -> extends fid fname b c -> extends fid fname a c.
Proof.
  intros (W1 & A1 & f1 & D1 & F1) (W2 & A2 & f2 & D2 & F2).
  split; [congruence|]. split; [congruence|].
  exists (f1 ++ f2). split; [rewrite D2, D1, app_assoc; reflexivity|].
  by apply Forall_app.
Qed.

Lemma identify_binder_type_Ok (binder_class : json) (source : string) :
  _identify_binder_type binder_class = Ok source -> source = "unknown".
Proof.
  destruct binder_class; try discriminate.
  cbn [_identify_binder_type]. rewrite first_key_in_lower. simpl. congruence.
Qed.

Lemma analyze_mdm_field_extends (element fid fname : json) (t : string)
    (self self' : analyzer) :
  t ∈ MDM_FIELD_TYPES ->
  _analyze_mdm_field element fid fname t self = Ok self' ->
  extends fid fname self self'.
Proof.
  intros Ht H. unfold _analyze_mdm_field in H.
  apply bind_Ok in H as (properties & _ & H).
  apply bind_Ok in H as (field_id & _ & H).
  apply bind_Ok in H as (field_label & _ & H).
  apply bind_Ok in H as (has_options & _ & H).
  apply bind_Ok in H as ([config1 source1] & H1 & H).
  apply bind_Ok in H as (has_binder & _ & H).
  apply bind_Ok in H as ([config2 source2] & H2 & H).
  apply bind_Ok in H as (control & _ & H).
  apply bind_Ok in H as (cascade & _ & H).
  apply bind_Ok in H as (cascade' & _ & H).
  assert (source1 = "static") as ->.
  { destruct has_options; [|congruence].
    apply bind_Ok in H1 as (v & _ & H1). congruence. }
  assert (source2 = "static" \/ source2 = "unknown") as Hsource.
  { destruct has_binder; [|left; congruence].
    apply bind_Ok in H2 as (binder & _ & H2).
    destruct binder; try (left; congruence).
    apply bind_Ok in H2 as (binder_class & _ & H2).
    apply bind_Ok in H2 as (source & Hs & H2).
    apply bind_Ok in H2 as (config & _ & H2).
    apply identify_binder_type_Ok in Hs. right. congruence. }
  destruct (negb (source2 =? "static")%string
            || (truthy control || truthy cascade)) eqn:C;
    injection H as <-; [|apply extends_refl].
  repeat split. eexists. split; [reflexivity|].
  constructor; [|constructor]. unfold recorded_in. cbn.
  split; [reflexivity|]. split; [reflexivity|]. split; [exact Ht|]. split.
  - destruct Hsource as [-> | ->]; [|by left]. right. split; [reflexivity|].
    exact C.
  - destruct (truthy control || truthy cascade); split; congruence.
Qed.

Lemma for_each_extends {A : Type} (fid fname : json)
    (body : A -> analyzer -> result analyzer) (l : list A) :
  (forall x, x ∈ l -> forall s s', body x s = Ok s' -> extends fid fname s s') ->
  forall self self', for_each body l self = Ok self' -> extends fid fname self self'.
Proof.
  induction l as [|x l IH]; intros Hbody self self' H; cbn [for_each] in H.
  - injection H as <-. apply extends_refl.
  - destruct (body x self) as [s1|e] eqn:E; [|discriminate].
    apply (extends_trans _ _ _ s1).
    + apply (Hbody x); [apply list_elem_of_here | exact E].
    + apply IH; [|exact H]. intros y Hy. apply Hbody. by apply list_elem_of_further.
Qed.

Lemma search_children_extends (fid fname : json)
    (recur : json -> analyzer -> result analyzer) (element : json) :
  (forall child s s', recur child s = Ok s' -> extends fid fname s s') ->
  forall self self',
    search_children recur element self = Ok self' -> extends fid fname self self'.
Proof.
  intros Hrec self self' H. unfold search_children in H.
  apply bind_Ok in H as (has_elements & _ & H).
  apply bind_Ok in H as (self1 & H1 & H).
  assert (extends fid fname self self1) as E1.
  { destruct has_elements; [|injection H1 as <-; apply extends_refl].
    apply bind_Ok in H1 as (elements & _ & H1).
    apply bind_Ok in H1 as (children & _ & H1).
    apply (for_each_extends _ _ _ _ ltac:(intros x _; apply Hrec) _ _ H1). }
  apply (extends_trans _ _ _ _ _ E1).
  apply bind_Ok in H as (has_properties & _ & H).
  destruct has_properties; [|injection H as <-; apply extends_refl].
  apply bind_Ok in H as (props & _ & H).
  destruct props; try (injection H as <-; apply extends_refl).
  apply bind_Ok in H as (has_nested & _ & H).
  destruct has_nested; [|injection H as <-; apply extends_refl].
  apply bind_Ok in H as (nested & _ & H).
  apply bind_Ok in H as (children & _ & H).
  apply (for_each_extends _ _ _ _ ltac:(intros x _; apply Hrec) _ _ H).
Qed.

Lemma walk_extends (depth : nat) (element fid fname : json)
    (self self' : analyzer) :
  _search_elements depth element fid fname self = Ok self' ->
  extends fid fname self self'.
Proof.
  revert element self self'.
  induction depth as [|depth IH]; intros element self self' H; [discriminate|].
  cbn [_search_elements] in H.
  destruct element; try (injection H as <-; apply extends_refl).
  apply bind_Ok in H as (class_name & _ & H).
  apply bind_Ok in H as (field_type & _ & H).
  apply bind_Ok in H as (is_mdm & Hmdm & H).
  apply bind_Ok in H as (self1 & H1 & H).
  apply (extends_trans _ _ _ self1).
  - destruct is_mdm; [|injection H1 as <-; apply extends_refl].
    destruct field_type; try (injection H1 as <-; apply extends_refl).
    rewrite in_MDM_FIELD_TYPES_str in Hmdm. injection Hmdm as Hmdm.
    apply bool_decide_eq_true in Hmdm.
    by apply (analyze_mdm_field_extends _ _ _ _ _ _ Hmdm H1).
  - apply (search_children_extends _ _ _ _ ltac:(intros c s s'; apply IH) _ _ H).
Qed.

(** X8.  A walk of a form definition that completes only appends
    dependencies: the warnings and the application data are untouched, the
    dependencies found before are kept in place, and every dependency it
    adds carries the identifier and name of the form, a field type among
    [MDM_FIELD_TYPES], an options source that is [unknown] or else [static]
    with a cascade, and a cascade configuration exactly when it cascades. *)
Theorem search_elements_extends (depth : nat) (element fid fname : json)
    (self self' : analyzer) :
  _search_elements depth element fid fname self = Ok self' ->
  extends fid fname self self'.
Proof. apply walk_extends. Qed.

Lemma search_elements_extends_witness :
  exists self',
    _search_elements 10 (sample_form_definition [sample_select; sample_text_field])
      (JStr "f1") (JStr "Form 1") init = Ok self' /\
    extends (JStr "f1") (JStr "Form 1") init self' /\
    length (self_dependencies self') = 1%nat.
Proof.
  assert (exists self',
            _search_elements 10
              (sample_form_definition [sample_select; sample_text_field])
              (JStr "f1") (JStr "Form 1") init = Ok self') as (self' & E)
    by (eexists; reflexivity).
  exists self'. split; [exact E|].
  split; [exact (search_elements_extends _ _ _ _ _ _ E)|].
  vm_compute in E. injection E as <-. reflexivity.
Defined.

End WalkFacts.

(** ** Scanner: what a scan reports *)

Section ScanFacts.

Variable json_loads : string -> result json.
Variable depth : nat.

Lemma analyze_form_extends (form : json) (self self' : analyzer) :
  _analyze_form json_loads depth form self = Ok self' ->
  exists fid fname,
    py_get "id" (JStr "unknown") form = Ok fid /\
    py_get "name" (JStr "unknown") form = Ok fname /\
    extends fid fname self self'.
Proof.
  unfold _analyze_form. intros H.
  apply bind_Ok in H as (fid & Hid & H).
  apply bind_Ok in H as (fname & Hname & H).
  apply bind_Ok in H as (form_json & _ & H).
  apply bind_Ok in H as (definition & _ & H).
  exists fid, fname. split; [exact Hid|]. split; [exact Hname|].
  by apply (walk_extends depth definition).
Qed.

Lemma from_forms_cons (form : json) (items : list json) (dep : MDMDependency) :
  from_forms items dep -> from_forms (form :: items) dep.
Proof.
  intros (f & Hf & H). exists f. split; [by apply list_elem_of_further | exact H].
Qed.

Lemma analyze_forms_extends (items : list json) :
  forall self self',
    for_each (_analyze_form json_loads depth) items self = Ok self' ->
    self_warnings self' = self_warnings self /\
    self_app_data self' = self_app_data self /\
    exists found,
      self_dependencies self' = self_dependencies self ++ found /\
      Forall (from_forms items) found.
Proof.
  induction items as [|form items IH]; intros self self' H; cbn [for_each] in H.
  - injection H as <-. repeat split. exists []. rewrite app_nil_r.
    split; [reflexivity | constructor].
  - destruct (_analyze_form json_loads depth form self) as [s1|e] eqn:E;
      [|discriminate].
    apply analyze_form_extends in E
      as (fid & fname & Hid & Hname & W1 & A1 & f1 & D1 & F1).
    apply IH in H as (W2 & A2 & f2 & D2 & F2).
    split; [congruence|]. split; [congruence|].
    exists (f1 ++ f2). split; [rewrite D2, D1, app_assoc; reflexivity|].
    apply Forall_app. split.
    + eapply Forall_impl; [exact F1|]. intros dep R.
      pose proof R as (Ei & En & _).
      exists form. rewrite Ei, En. split; [apply list_elem_of_here|].
      split; [exact Hid|]. split; [exact Hname | exact R].
    + eapply Forall_impl; [exact F2|]. intros dep. apply from_forms_cons.
Qed.

Lemma get_forms_effect (self self1 : analyzer) (forms : json) :
  _get_forms self = Ok (forms, self1) ->
  self_dependencies self1 = self_dependencies self /\
  self_app_data self1 = self_app_data self /\
  (self_warnings self1 = self_warnings self \/
   (self_warnings self1 = self_warnings self ++ [no_forms_warning] /\
    forms = JArr [])).
Proof.
  unfold _get_forms. intros H.
  apply bind_Ok in H as (has_forms & _ & H). destruct has_forms.
  { apply bind_Ok in H as (v & _ & H). injection H as <- <-. tauto. }
  apply bind_Ok in H as (has_list & _ & H). destruct has_list.
  { apply bind_Ok in H as (v & _ & H). injection H as <- <-. tauto. }
  injection H as <- <-. simpl. tauto.
Qed.

Lemma length_chars (s : string) : length (chars s) = String.length s.
Proof. induction s as [|c s IH]; simpl; [reflexivity | by rewrite IH]. Qed.

Lemma len_iter (x : json) (n : nat) (items : list json) :
  py_len x = Ok n -> py_iter x = Ok items -> n = length items.
Proof.
  destruct x; simpl; try discriminate; intros [= <-] [= <-].
  - by rewrite length_chars.
  - reflexivity.
  - by rewrite length_fmap.
Qed.

(** What a scan by a fresh analyzer leaves in its report. *)
Lemma fresh_scan (export : result json) (report : AnalysisReport)
    (self' : analyzer) :
  analyze json_loads depth export init = Ok (report, self') ->
  exists (forms : json) (items : list json) (ids : gset hkey),
    total_mdm_fields report = length (dependencies report) /\
    py_iter forms = Ok items /\
    total_forms report = length items /\
    Forall (from_forms items) (dependencies report) /\
    (warnings report = [] \/
     (warnings report = [no_forms_warning] /\ items = [])) /\
    form_id_set (dependencies report) = Ok ids /\
    statistics report =
      foldl count_dependency (mkStatistics ∅ ∅ 0 (size ids)) (dependencies report).
Proof.
  unfold analyze. intros H.
  apply bind_Ok in H as (app_data & _ & H).
  apply bind_Ok in H as ([forms self1] & Hforms & H).
  apply bind_Ok in H as (total & Hlen & H).
  apply bind_Ok in H as (items & Hiter & H).
  apply bind_Ok in H as (self2 & Hloop & H).
  apply bind_Ok in H as (stats & Hstats & H).
  apply bind_Ok in H as (app_id & _ & H).
  apply bind_Ok in H as (app_name & _ & H).
  injection H as <- _.
  cbn [total_forms total_mdm_fields dependencies warnings statistics].
  apply get_forms_effect in Hforms as (D1 & _ & W1).
  apply analyze_forms_extends in Hloop as (W2 & _ & found & D2 & F).
  cbn [init self_dependencies self_warnings] in D1, W1.
  rewrite D1 in D2. cbn [app] in D2. rewrite W2, D2.
  unfold _generate_statistics in Hstats.
  apply bind_Ok in Hstats as (ids & Hids & Hstats). injection Hstats as <-.
  rewrite D2 in Hids |- *.
  exists forms, items, ids. split; [reflexivity|].
  split; [exact Hiter|]. split; [by apply (len_iter forms)|].
  split; [exact F|]. split; [|split; [exact Hids | reflexivity]].
  destruct W1 as [->|[-> ->]]; [by left | right].
  split; [reflexivity|]. injection Hiter as <-. reflexivity.
Qed.


Lemma length_omap_le {A B : Type} (f : A -> option B) (l : list A) :
  (length (omap f l) <= length l)%nat.
Proof.
  induction l as [|x l IH]; simpl; [lia|].
  destruct (f x); simpl; change (list_omap A B f l) with (omap f l); lia.
Qed.

Lemma distinct_within {A : Type} (f : A -> option hkey) (l : list A)
    (ids : gset hkey) :
  (forall k, k ∈ ids -> exists x, x ∈ l /\ f x = Some k) ->
  (size ids <= length l)%nat.
Proof.
  intros H. unfold size, set_size. simpl.
  transitivity (length (omap f l)); [|apply length_omap_le].
  apply submseteq_length, NoDup_submseteq; [apply NoDup_elements|].
  intros k Hk. apply elem_of_elements in Hk.
  apply list_elem_of_omap. by apply H.
Qed.

(** X10.  In the report of a completed scan by a fresh analyzer, the number
    of forms with dependencies exceeds neither the number of forms nor the
    number of dependencies. *)
Theorem unique_forms_bounds (export : result json) (report : AnalysisReport)
    (self' : analyzer) :
  analyze json_loads depth export init = Ok (report, self') ->
  (unique_forms_with_mdm (statistics report) <= total_forms report)%nat /\
  (unique_forms_with_mdm (statistics report) <= total_mdm_fields report)%nat.
Proof.
  intros H.
  apply fresh_scan in H
    as (forms & items & ids & Total & I & T & F & _ & Hids & St).
  destruct (count_dependencies (dependencies report)
              (mkStatistics ∅ ∅ 0 (size ids))) as (_ & _ & _ & U & _).
  cbv zeta in U. rewrite <- St in U. cbn in U. rewrite U, T, Total.
  pose proof (form_id_set_spec _ _ Hids) as Spec. split.
  - apply (distinct_within
             (fun form => match py_get "id" (JStr "unknown") form with
                          | Ok v => hash_of v
                          | Raise _ => None
                          end)).
    intros k Hk. apply Spec in Hk as (dep & Hdep & Hk).
    rewrite Forall_forall in F.
    destruct (F dep Hdep) as (form & Hin & Hid & _).
    exists form. split; [exact Hin|]. rewrite Hid. unfold hash_of. by rewrite Hk.
  - apply (distinct_within (fun dep => hash_of (form_id dep))).
    intros k Hk. apply Spec in Hk as (dep & Hdep & Hk).
    exists dep. split; [exact Hdep|]. unfold hash_of. by rewrite Hk.
Qed.

Lemma count_up_positive (key : string) (group : gmap string nat) :
  (forall k n, group !! k = Some n -> (0 < n)%nat) ->
  forall k n, count_up key group !! k = Some n -> (0 < n)%nat.
Proof.
  intros Pos k n. unfold count_up. rewrite lookup_insert.
  destruct (decide (key = k)); [intros [= <-]; lia | apply Pos].
Qed.

Lemma count_dependencies_positive (deps : list MDMDependency) :
  forall st,
    (forall k n, by_field_type st !! k = Some n -> (0 < n)%nat) ->
    (forall k n, by_options_source st !! k = Some n -> (0 < n)%nat) ->
    (forall k n, by_field_type (foldl count_dependency st deps) !! k = Some n ->
       (0 < n)%nat) /\
    (forall k n, by_options_source (foldl count_dependency st deps) !! k = Some n ->
       (0 < n)%nat).
Proof.
  induction deps as [|d deps IH]; intros st PF PO; cbn [foldl]; [tauto|].
  apply IH; unfold count_dependency; simpl; by apply count_up_positive.
Qed.

Lemma occurrences_positive (key : MDMDependency -> string) (k : string)
    (deps : list MDMDependency) :
  (0 < occurrences key k deps)%nat -> exists dep, dep ∈ deps /\ key dep = k.
Proof.
  unfold occurrences. intros H.
  destruct (filter (fun d => key d = k) deps) as [|dep rest] eqn:E;
    [simpl in H; lia|].
  assert (dep ∈ filter (fun d => key d = k) deps) as Hin
    by (rewrite E; apply list_elem_of_here).
  apply list_elem_of_filter in Hin as [Hk Hin]. eauto.
Qed.

(** X11.  In the statistics of a completed scan by a fresh analyzer every
    count is positive, the counts by field type are kept under keys of
    [MDM_FIELD_TYPES] only, and the counts by options source under [static]
    and [unknown] only. *)
Theorem statistics_keys (export : result json) (report : AnalysisReport)
    (self' : analyzer) :
  analyze json_loads depth export init = Ok (report, self') ->
  (forall k n, by_field_type (statistics report) !! k = Some n ->
     k ∈ MDM_FIELD_TYPES /\ (0 < n)%nat) /\
  (forall k n, by_options_source (statistics report) !! k = Some n ->
     (k = "static" \/ k = "unknown") /\ (0 < n)%nat).
Proof.
  intros H.
  apply fresh_scan in H as (forms & items & ids & _ & _ & _ & F & _ & _ & St).
  destruct (count_dependencies (dependencies report)
              (mkStatistics ∅ ∅ 0 (size ids))) as (_ & _ & _ & _ & Fk & Ok').
  destruct (count_dependencies_positive (dependencies report)
              (mkStatistics ∅ ∅ 0 (size ids))) as (PF & PO);
    [intros k n; simpl; rewrite lookup_empty; discriminate ..|].
  cbv zeta in Fk, Ok'. rewrite <- St in Fk, Ok', PF, PO.
  rewrite Forall_forall in F. split.
  - intros k n Hk. pose proof (PF k n Hk) as Pos. split; [|exact Pos].
    specialize (Fk k). rewrite Hk in Fk. simpl in Fk. rewrite lookup_empty in Fk.
    simpl in Fk. rewrite Fk in Pos.
    apply occurrences_positive in Pos as (dep & Hdep & <-).
    destruct (F dep Hdep) as (_ & _ & _ & _ & _ & _ & R & _). exact R.
  - intros k n Hk. pose proof (PO k n Hk) as Pos. split; [|exact Pos].
    specialize (Ok' k). rewrite Hk in Ok'. simpl in Ok'. rewrite lookup_empty in Ok'.
    simpl in Ok'. rewrite Ok' in Pos.
    apply occurrences_positive in Pos as (dep & Hdep & <-).
    destruct (F dep Hdep) as (_ & _ & _ & _ & _ & _ & _ & [R|[R _]] & _); tauto.
Qed.

End ScanFacts.

Section ScanSamples.

Lemma sample_scan_completes :
  exists report self',
    analyze sample_loads 10 (Ok sample_app) init = Ok (report, self').
Proof. vm_compute. eauto. Qed.


Lemma unique_forms_bounds_witness :
  exists report self',
    analyze sample_loads 10 (Ok sample_app) init = Ok (report, self') /\
    (unique_forms_with_mdm (statistics report) <= total_forms report)%nat /\
    (unique_forms_with_mdm (statistics report) <= total_mdm_fields report)%nat.
Proof.
  destruct sample_scan_completes as (report & self' & E).
  exists report, self'. split; [exact E|].
  exact (unique_forms_bounds sample_loads 10 _ _ _ E).
Defined.

Lemma statistics_keys_witness :
  exists report self',
    analyze sample_loads 10 (Ok sample_app) init = Ok (report, self') /\
    (forall k n, by_field_type (statistics report) !! k = Some n ->
       k ∈ MDM_FIELD_TYPES /\ (0 < n)%nat) /\
    (forall k n, by_options_source (statistics report) !! k = Some n ->
       (k = "static" \/ k = "unknown") /\ (0 < n)%nat).
Proof.
  destruct sample_scan_completes as (report & self' & E).
  exists report, self'. split; [exact E|].
  exact (statistics_keys sample_loads 10 _ _ _ E).
Defined.

End ScanSamples.

(** ** Scanner: what makes a scan fail *)

Section Failures.

Variable json_loads : string -> result json.
Variable depth : nat.

Lemma for_each_raises {A S : Type} (body : A -> S -> result S) (l : list A) (x : A) :
  x ∈ l -> (forall st, exists e, body x st = Raise e) ->
  forall st, exists e, for_each body l st = Raise e.
Proof.
  intros Hin Hx. induction l as [|y l IH]; intros st; [by apply elem_of_nil in Hin|].
  cbn [for_each]. apply elem_of_cons in Hin as [<-|Hin].
  - destruct (Hx st) as [e ->]. eauto.
  - destruct (body y st) as [st'|e]; [by apply IH | eauto].
Qed.

Lemma analyze_form_bad_json (ff : list (string * json)) (text : string) (e : exn)
    (self : analyzer) :
  dict_get "json" ff = Some (JStr text) -> json_loads text = Raise e ->
  _analyze_form json_loads depth (JObj ff) self = Raise e.
Proof.
  intros Hj He. unfold _analyze_form. cbn [py_get mbind result_bind].
  rewrite Hj. cbn [from_option id mbind result_bind]. rewrite He. reflexivity.
Qed.

Lemma analyze_with_forms (fields : list (string * json)) (forms : list json)
    (self : analyzer) :
  dict_get "forms" fields = Some (JArr forms) ->
  analyze json_loads depth (Ok (JObj fields)) self =
    (self ← for_each (_analyze_form json_loads depth) forms
              (mkAnalyzer (self_dependencies self) (self_warnings self) (JObj fields));
     stats ← _generate_statistics self;
     application_id ← py_get "appId" (JStr "unknown") (self_app_data self);
     application_name ← py_get "appName" (JStr "unknown") (self_app_data self);
     Ok (mkAnalysisReport application_id application_name (length forms)
           (length (self_dependencies self)) (self_dependencies self)
           (self_warnings self) stats, self)).
Proof.
  intros Hf. unfold analyze, _get_forms.
  cbn [_load_app_export self_app_data py_in py_getitem mbind result_bind].
  rewrite (dict_has_some _ _ _ Hf), Hf. reflexivity.
Qed.

(** X12.  A form whose definition is text that [json.loads] rejects makes
    the scan fail: no report is produced and no warning stands in for the
    form; when it is the first form, the scan fails with the decoder's
    exception. *)
Theorem malformed_form_aborts (fields ff : list (string * json))
    (forms : list json) (text : string) (e : exn) (self : analyzer) :
  dict_get "forms" fields = Some (JArr forms) ->
  JObj ff ∈ forms ->
  dict_get "json" ff = Some (JStr text) ->
  json_loads text = Raise e ->
  (exists e', analyze json_loads depth (Ok (JObj fields)) self = Raise e') /\
  (forall rest, forms = JObj ff :: rest ->
     analyze json_loads depth (Ok (JObj fields)) self = Raise e).
Proof.
  intros Hf Hin Hj He. rewrite (analyze_with_forms _ _ _ Hf). split.
  - destruct (for_each_raises (_analyze_form json_loads depth) forms (JObj ff) Hin)
      with (st := mkAnalyzer (self_dependencies self) (self_warnings self)
                    (JObj fields)) as [e' ->].
    + intros st. exists e. by apply (analyze_form_bad_json ff text).
    + eauto.
  - intros rest ->. cbn [for_each].
    rewrite (analyze_form_bad_json _ _ _ _ Hj He). reflexivity.
Qed.

(** X13.  A node whose [className] is present and not a string makes the
    walk fail with a [TypeError] or an [AttributeError], whatever else the
    node holds. *)
Theorem non_string_class_name_aborts (fields : list (string * json))
    (class_name fid fname : json) (self : analyzer) :
  dict_get "className" fields = Some class_name ->
  not_str class_name ->
  exists e,
    _search_elements (S depth) (JObj fields) fid fname self = Raise e /\
    (exn_type e = TypeError \/ exn_type e = AttributeError).
Proof.
  intros Hc Hn. cbn [_search_elements py_get]. rewrite Hc.
  cbn [from_option id mbind result_bind]. unfold _get_field_type.
  destruct class_name; try contradiction;
    cbn [py_in mbind result_bind raise];
    try (eexists; split; [reflexivity | by left]).
  - destruct (existsb _ items);
      cbn [mbind result_bind raise in_MDM_FIELD_TYPES py_hash];
      eexists; (split; [reflexivity|]); simpl; tauto.
  - destruct (dict_has "." fields0);
      cbn [mbind result_bind raise in_MDM_FIELD_TYPES py_hash];
      eexists; (split; [reflexivity|]); simpl; tauto.
Qed.

(** X14.  The key [forms] is taken by presence, not by value: when it is
    present with a value that has no length (null, a number, a boolean), the
    scan fails with a [TypeError], whatever [formDefinitionList] holds. *)
Theorem forms_without_length_aborts (fields : list (string * json))
    (forms : json) (self : analyzer) :
  dict_get "forms" fields = Some forms ->
  (forall e, py_len forms = Raise e ->
     analyze json_loads depth (Ok (JObj fields)) self = Raise e) /\
  (forms = JNull \/ (exists b, forms = JBool b) \/ (exists n, forms = JInt n) \/
   (exists q, forms = JFloat q) ->
   exists e, analyze json_loads depth (Ok (JObj fields)) self = Raise e /\
             exn_type e = TypeError).
Proof.
  intros Hf.
  assert (forall e, py_len forms = Raise e ->
            analyze json_loads depth (Ok (JObj fields)) self = Raise e) as Fail.
  { intros e He. unfold analyze, _get_forms.
    cbn [_load_app_export self_app_data py_in py_getitem mbind result_bind].
    rewrite (dict_has_some _ _ _ Hf), Hf. cbn [mbind result_bind].
    rewrite He. reflexivity. }
  split; [exact Fail|].
  intros [->|[[b ->]|[[n ->]|[q ->]]]];
    eexists; (split; [apply Fail; reflexivity | reflexivity]).
Qed.

(** X15.  A candidate field fails with an [AttributeError] when its
    [properties] are present and not a mapping, and when its [optionsBinder]
    is a mapping whose [className] is present and not a string. *)
Theorem mdm_field_type_errors (fields : list (string * json)) (fid fname : json)
    (t : string) (self : analyzer) :
  (forall properties,
     dict_get "properties" fields = Some properties -> not_dict properties ->
     exists e, _analyze_mdm_field (JObj fields) fid fname t self = Raise e /\
               exn_type e = AttributeError) /\
  (forall props binder class_name,
     dict_get "properties" fields = Some (JObj props) ->
     dict_get "optionsBinder" props = Some (JObj binder) ->
     dict_get "className" binder = Some class_name -> not_str class_name ->
     exists e, _analyze_mdm_field (JObj fields) fid fname t self = Raise e /\
               exn_type e = AttributeError).
Proof.
  split.
  - intros properties Hp Hn. unfold _analyze_mdm_field.
    cbn [py_get mbind result_bind]. rewrite Hp. cbn [from_option id].
    destruct properties; try contradiction;
      eexists; (split; [reflexivity | reflexivity]).
  - intros props binder class_name Hp Hb Hc Hn. unfold _analyze_mdm_field.
    cbn [py_get mbind result_bind]. rewrite Hp.
    cbn [from_option id py_get py_in py_getitem mbind result_bind].
    rewrite (dict_has_some _ _ _ Hb), Hb.
    destruct (dict_get "options" props) as [o|] eqn:Eo;
      [rewrite (dict_has_some _ _ _ Eo) | rewrite (dict_has_none _ _ Eo)];
      cbn [py_get mbind result_bind]; rewrite Hc; cbn [from_option id];
      destruct class_name; try contradiction;
      eexists; (split; [reflexivity | reflexivity]).
Qed.

End Failures.

Section FailureSamples.

Lemma malformed_form_aborts_witness :
  analyze sample_loads 10
    (Ok (JObj [("appId", JStr "frs");
               ("forms", JArr [JObj [("id", JStr "f1"); ("json", JStr "{broken")]])]))
    init = Raise (Exn JSONDecodeError "Expecting value").
Proof.
  exact (proj2 (malformed_form_aborts sample_loads 10
                  [("appId", JStr "frs");
                   ("forms", JArr [JObj [("id", JStr "f1"); ("json", JStr "{broken")]])]
                  [("id", JStr "f1"); ("json", JStr "{broken")]
                  [JObj [("id", JStr "f1"); ("json", JStr "{broken")]]
                  "{broken" (Exn JSONDecodeError "Expecting value") init
                  eq_refl (list_elem_of_here _ _) eq_refl eq_refl)
           [] eq_refl).
Defined.

Lemma non_string_class_name_aborts_witness :
  exists e,
    _search_elements 1 (JObj [("className", JInt 5); ("elements", JArr [])])
      (JStr "f1") (JStr "Form 1") init = Raise e /\
    (exn_type e = TypeError \/ exn_type e = AttributeError).
Proof.
  exact (non_string_class_name_aborts 0
           [("className", JInt 5); ("elements", JArr [])] (JInt 5)
           (JStr "f1") (JStr "Form 1") init eq_refl I).
Defined.

Lemma forms_without_length_aborts_witness :
  exists e,
    analyze sample_loads 10
      (Ok (JObj [("forms", JNull); ("formDefinitionList", JArr [])])) init
      = Raise e /\
    exn_type e = TypeError.
Proof.
  exact (proj2 (forms_without_length_aborts sample_loads 10
                  [("forms", JNull); ("formDefinitionList", JArr [])] JNull init
                  eq_refl)
           (or_introl eq_refl)).
Defined.

Example list_class_name_fails :
  _search_elements 5 (JObj [("className", JArr [JStr "a.b"])])
    (JStr "f1") (JStr "Form 1") init
    = Raise (Exn TypeError "unhashable type") /\
  _search_elements 5 (JObj [("className", JArr [JStr "."])])
    (JStr "f1") (JStr "Form 1") init
    = Raise (Exn AttributeError "object has no attribute 'split'").
Proof. split; reflexivity. Qed.

End FailureSamples.

(** ** Scanner: the recursion limit does not change a result *)

Section DepthFacts.







End DepthFacts.

(** ** Scanner: forms and containers *)

Section FormFacts.

Variable json_loads : string -> result json.
Variable depth : nat.

(** X18.  A form that is not a mapping fails with an [AttributeError]; a
    form without a [json] key is walked as an empty definition and records
    nothing; a form whose [json] is already structured is walked as it is,
    without [json.loads]. *)
Theorem analyze_form_edges (form : json) (self : analyzer) :
  (not_dict form ->
   exists e, _analyze_form json_loads depth form self = Raise e /\
             exn_type e = AttributeError) /\
  (forall ff, form = JObj ff -> dict_get "json" ff = None ->
     _analyze_form json_loads (S depth) form self = Ok self) /\
  (forall ff definition, form = JObj ff ->
     dict_get "json" ff = Some definition -> not_str definition ->
     _analyze_form json_loads depth form self =
       _search_elements depth definition
         (default (JStr "unknown") (dict_get "id" ff))
         (default (JStr "unknown") (dict_get "name" ff)) self).
Proof.
  split; [|split].
  - intros Hn. destruct form; try contradiction;
      eexists; (split; [reflexivity | reflexivity]).
  - intros ff -> Hj. unfold _analyze_form. cbn [py_get mbind result_bind].
    rewrite Hj. reflexivity.
  - intros ff definition -> Hj Hn. unfold _analyze_form.
    cbn [py_get mbind result_bind]. rewrite Hj. cbn [from_option id].
    destruct definition; try contradiction; reflexivity.
Qed.

(** X19.  A container, that is a node whose tag is not in [MDM_FIELD_TYPES],
    with a list under [elements] and a list under the [elements] of its
    [properties], is walked through both: first its own children in order,
    then the nested ones, each with one level less of recursion. *)
Theorem container_walks_both_lists (fields props : list (string * json))
    (tag : string) (own nested : list json) (fid fname : json) (self : analyzer) :
  _get_field_type (default (JStr "") (dict_get "className" fields)) = Ok (JStr tag) ->
  tag ∉ MDM_FIELD_TYPES ->
  dict_get "elements" fields = Some (JArr own) ->
  dict_get "properties" fields = Some (JObj props) ->
  dict_get "elements" props = Some (JArr nested) ->
  _search_elements (S depth) (JObj fields) fid fname self =
    (self ← for_each (fun child => _search_elements depth child fid fname) own self;
     for_each (fun child => _search_elements depth child fid fname) nested self).
Proof.
  intros Ht Hn Ho Hp Hnest. cbn [_search_elements py_get mbind result_bind].
  rewrite Ht. cbn [mbind result_bind]. rewrite in_MDM_FIELD_TYPES_str.
  cbn [mbind result_bind]. rewrite (bool_decide_eq_false_2 _ Hn).
  cbn [mbind result_bind]. unfold search_children.
  cbn [py_in py_get py_getitem mbind result_bind].
  rewrite (dict_has_some _ _ _ Ho), Ho, (dict_has_some _ _ _ Hp), Hp.
  cbn [from_option id py_iter py_in py_getitem mbind result_bind].
  rewrite (dict_has_some _ _ _ Hnest), Hnest. reflexivity.
Qed.

End FormFacts.

Section FormSamples.

Lemma container_walks_both_lists_witness :
  _search_elements 3
    (JObj [("className", JStr "org.joget.apps.form.model.Section");
           ("elements", JArr [JObj cascading_field]);
           ("properties", JObj [("elements", JArr [sample_select])])])
    (JStr "f1") (JStr "Form 1") init =
  (self ← for_each (fun child => _search_elements 2 child (JStr "f1") (JStr "Form 1"))
            [JObj cascading_field] init;
   for_each (fun child => _search_elements 2 child (JStr "f1") (JStr "Form 1"))
     [sample_select] self).
Proof.
  apply (container_walks_both_lists 2 _ [("elements", JArr [sample_select])]
           "Section"); try reflexivity.
  intros H. repeat (apply elem_of_cons in H as [H|H]; [discriminate|]).
  by apply elem_of_nil in H.
Defined.

Example container_finds_both :
  (fun r => match r with
            | Ok self => field_id <$> self_dependencies self
            | Raise _ => []
            end)
    (_search_elements 3
       (JObj [("className", JStr "org.joget.apps.form.model.Section");
              ("elements", JArr [JObj cascading_field]);
              ("properties", JObj [("elements", JArr [sample_select])])])
       (JStr "f1") (JStr "Form 1") init)
  = [JStr "city"; JStr "dept"].
Proof. reflexivity. Qed.

End FormSamples.

(** ** Health evaluator: construction and repeated runs *)

Section CheckerFacts.

Lemma appends_six (used_percent_of : Z -> Z -> result Z) (cfg : config)
    (w : probes) (results : list CheckResult) :
  exists six,
    (run_all_checks used_percent_of cfg w results).2 = results ++ six /\
    (run_all_checks used_percent_of cfg w []).2 = six /\
    (run_all_checks used_percent_of cfg w results).1 =
      _calculate_overall_status (results ++ six).
Proof.
  unfold run_all_checks. cbv zeta.
  destruct (web_interface_appends_one cfg (get_root w) results) as (r1 & E1 & _).
  destruct (web_interface_appends_one cfg (get_root w) []) as (r1' & E1' & _).
  assert (r1' = r1) as ->.
  { unfold _check_web_interface, append in E1, E1'.
    repeat case_match; simplify_list_eq; reflexivity. }
  rewrite E1, E1'.
  destruct (database_appends_one cfg (mysql_first w) (mysql_retry w)
              (results ++ [r1])) as (r2 & E2 & _).
  destruct (database_appends_one cfg (mysql_first w) (mysql_retry w)
              ([] ++ [r1])) as (r2' & E2' & _).
  assert (r2' = r2) as ->.
  { unfold _check_database_connection, database_except, append in E2, E2'.
    repeat case_match; simplify_list_eq; reflexivity. }
  rewrite E2, E2'.
  destruct (admin_console_appends_one cfg (get_console w)
              ((results ++ [r1]) ++ [r2])) as (r3 & E3 & _).
  destruct (admin_console_appends_one cfg (get_console w)
              (([] ++ [r1]) ++ [r2])) as (r3' & E3' & _).
  assert (r3' = r3) as ->.
  { unfold _check_admin_console, append in E3, E3'.
    repeat case_match; simplify_list_eq; reflexivity. }
  rewrite E3, E3'.
  destruct (process_appends_one cfg (ps_aux w)
              (((results ++ [r1]) ++ [r2]) ++ [r3])) as (r4 & E4 & _).
  destruct (process_appends_one cfg (ps_aux w)
              ((([] ++ [r1]) ++ [r2]) ++ [r3])) as (r4' & E4' & _).
  assert (r4' = r4) as ->.
  { unfold _check_process_running, append in E4, E4'.
    repeat case_match; simplify_list_eq; reflexivity. }
  rewrite E4, E4'.
  destruct (disk_space_appends_one (df_root w)
              ((((results ++ [r1]) ++ [r2]) ++ [r3]) ++ [r4])) as (r5 & E5 & _).
  destruct (disk_space_appends_one (df_root w)
              (((([] ++ [r1]) ++ [r2]) ++ [r3]) ++ [r4])) as (r5' & E5' & _).
  assert (r5' = r5) as ->.
  { unfold _check_disk_space, append in E5, E5'. cbv zeta in E5, E5'.
    repeat case_match; simplify_list_eq; reflexivity. }
  rewrite E5, E5'.
  destruct (memory_appends_one used_percent_of (free_m w)
              (((((results ++ [r1]) ++ [r2]) ++ [r3]) ++ [r4]) ++ [r5]))
    as (r6 & E6 & _).
  destruct (memory_appends_one used_percent_of (free_m w)
              ((((([] ++ [r1]) ++ [r2]) ++ [r3]) ++ [r4]) ++ [r5]))
    as (r6' & E6' & _).
  assert (r6' = r6) as ->.
  { unfold _check_memory_usage, append in E6, E6'. cbv zeta in E6, E6'.
    repeat case_match; simplify_list_eq; reflexivity. }
  rewrite E6, E6'.
  exists [r1; r2; r3; r4; r5; r6]. simpl. rewrite <- !app_assoc. simpl.
  repeat split.
Qed.

Lemma worst_severity (a b : HealthStatus) :
  (severity a <= severity (worst a b))%nat.
Proof. destruct a, b; simpl; lia. Qed.

(** X20.  Running the checks again on a checker that already holds results
    appends the same six results a fresh checker would get, and the overall
    status is the more severe of the status before and the status of the six
    new results: on one checker the overall status never improves. *)
Theorem rerun_never_improves (used_percent_of : Z -> Z -> result Z) (cfg : config)
    (w : probes) (results : list CheckResult) :
  (run_all_checks used_percent_of cfg w results).2 =
    results ++ (run_all_checks used_percent_of cfg w []).2 /\
  (run_all_checks used_percent_of cfg w results).1 =
    worst (_calculate_overall_status results)
          (run_all_checks used_percent_of cfg w []).1 /\
  (severity (_calculate_overall_status results)
   <= severity (run_all_checks used_percent_of cfg w results).1)%nat.
Proof.
  destruct (appends_six used_percent_of cfg w results) as (six & E & F & O).
  destruct (appends_six used_percent_of cfg w []) as (six' & _ & F' & O').
  assert (six' = six) as -> by congruence.
  rewrite E, O, O', F. cbn [app]. rewrite overall_status_app.
  split; [reflexivity|]. split; [reflexivity | apply worst_severity].
Qed.

Example rerun_after_outage :
  (run_all_checks sample_percent (mkConfig 8081 3309 (Some "9.0.0")) healthy_probes
     (run_all_checks sample_percent (mkConfig 8081 3309 (Some "9.0.0"))
        stopped_probes []).2).1 = UNHEALTHY /\
  (run_all_checks sample_percent (mkConfig 8081 3309 (Some "9.0.0")) healthy_probes
     []).1 = HEALTHY.
Proof. split; reflexivity. Qed.



End CheckerFacts.
